(** * SurfaceFactory: a shallow embedding of
      CompositionSurfaceFactory/SurfaceFactory.cpp

    The factory is a C++/CX ref class whose methods mutate its own fields
    and call into the graphics backend (Win2D and Windows.UI.Composition).
    Both are made explicit here: a [State] holds the fields of [this] and a
    [World] with the backend objects the handles point to.  Methods are
    computations in a state-and-exception monad; an exception keeps the
    state reached so far, and scoped objects (lock sessions, drawing
    sessions) are released on every exit path, as C++ destructors are. *)

From Stdlib Require Import ZArith Lia.
From Stdlib.Strings Require Import Byte.
From stdpp Require Import base option list strings.

Set Default Proof Using "Type".

(** ** Values *)

(** [Size], [Rect] and the opacity are single-precision floats in the
    source.  The factory never computes with them: it copies them, tests
    [IsEmpty], and writes the literals 0, 1 and 1.0f.  They are carried as
    integers extended with the negative infinity that [Size::Empty] uses. *)
Inductive float : Type :=
  | NegativeInfinity
  | Fin (z : Z).

Definition float_lt0 (x : float) : bool :=
  match x with
  | NegativeInfinity => true
  | Fin z => (z <? 0)%Z
  end.

Record Size := mkSize { Width : float; Height : float }.

(** [Size::Empty] of Windows.Foundation: both components are -infinity. *)
Definition Size_Empty : Size := mkSize NegativeInfinity NegativeInfinity.

(** [Size::IsEmpty] of Windows.Foundation: a negative width. *)
Definition IsEmpty (s : Size) : bool := float_lt0 (Width s).

Record Rect := mkRect { X : float; Y : float; RWidth : float; RHeight : float }.

Record Color := mkColor { A : Z; R : Z; G : Z; B : Z }.

(** [Windows::UI::Colors::Transparent] is #00FFFFFF. *)
Definition Transparent : Color := mkColor 0 255 255 255.

Inductive DirectXPixelFormat := B8G8R8A8UIntNormalized | OtherPixelFormat (code : Z).
Inductive DirectXAlphaMode := Premultiplied | Straight | Ignore.

(** Modelled from the spec: the enumeration InterpolationMode and
    InterpolationModeHelper::GetCanvasImageInterpolation are declared in
    headers that are not part of the source file.  The spec names the
    tiers nearest-neighbor, linear and higher-quality resampling. *)
Inductive InterpolationMode := NearestNeighbor | Linear | HighQualityCubic.
Inductive CanvasImageInterpolation :=
  | CanvasNearestNeighbor | CanvasLinear | CanvasHighQualityCubic.

Definition GetCanvasImageInterpolation (m : InterpolationMode)
  : CanvasImageInterpolation :=
  match m with
  | NearestNeighbor => CanvasNearestNeighbor
  | Linear => CanvasLinear
  | HighQualityCubic => CanvasHighQualityCubic
  end.

Definition Uri := string.
Definition Compositor := nat.

(** Modelled from the spec: SurfaceFactoryOptions is declared in
    SurfaceFactoryOptions.h; the source reads and writes only its field
    UseSoftwareRenderer ("a flag selecting software vs. hardware
    rendering"). *)
Record SurfaceFactoryOptions := mkOptions { UseSoftwareRenderer : bool }.

(** A bitmap is an immutable value once created. *)
Inductive BitmapSource :=
  | FromUri (device : nat) (uri : Uri)
  | FromBytes (device : nat) (bytes : list byte) (widthInPixels heightInPixels : Z)
              (format : DirectXPixelFormat).

Record CanvasBitmap := mkBitmap { bmp_source : BitmapSource; bmp_size : Size }.

(** What a drawing session did to a surface. *)
Inductive Paint :=
  | PClear (c : Color)
  | PDrawImage (bitmap : CanvasBitmap) (dest src : Rect) (opacity : float)
               (interpolation : CanvasImageInterpolation).

(** ** Backend objects *)

Record CanvasDevice := mkCanvasDevice {
  ForceSoftwareRenderer : bool;
  cd_closed : bool }.

Record CompositionGraphicsDevice := mkGraphicsDevice {
  gd_compositor : Compositor;
  gd_canvasDevice : nat;
  gd_handlers : list nat;       (* RenderingDeviceReplaced registrations *)
  gd_closed : bool }.

Record CompositionDrawingSurface := mkSurface {
  surf_device : nat;
  surf_size : Size;
  surf_format : DirectXPixelFormat;
  surf_alpha : DirectXAlphaMode;
  surf_content : list Paint;        (* what the last finished session drew *)
  surf_session : option (list Paint) (* the session in progress, if any *) }.

(** Modelled from the spec: DeviceLostHelper is a class of this repository
    that is not in the source file.  "watch(device) begins observing a
    device handle; stopWatching() ends observation and must be idempotent
    and safe to call when not currently watching." *)
Record DeviceLostHelper := mkHelper {
  dl_watched : option nat;
  dl_handlers : list nat }.

(** The events of a run, oldest first. *)
Inductive Event :=
  | EvLock (lock : nat)
  | EvUnlock (lock : nat)
  | EvNewCanvasDevice (device : nat) (software : bool)
  | EvCloseCanvasDevice (device : nat)
  | EvWatchDevice (helper device : nat)
  | EvStopWatching (helper : nat)
  | EvNewGraphicsDevice (graphicsDevice : nat) (compositor : Compositor) (device : nat)
  | EvCloseGraphicsDevice (graphicsDevice : nat)
  | EvSetCanvasDevice (graphicsDevice device : nat)
  | EvSubscribe (graphicsDevice token : nat)
  | EvUnsubscribe (graphicsDevice token : nat)
  | EvCreateDrawingSurface (graphicsDevice surface : nat) (size : Size)
                           (format : DirectXPixelFormat) (alpha : DirectXAlphaMode)
  | EvResize (surface : nat) (size : Size)
  | EvBeginDraw (surface : nat)
  | EvPaint (surface : nat) (p : Paint)
  | EvEndDraw (surface : nat)
  | EvCreateBitmap (device : nat) (length : nat) (widthInPixels heightInPixels : Z).

Record World := mkWorld {
  canvasDevices : list CanvasDevice;
  graphicsDevices : list CompositionGraphicsDevice;
  surfaces : list CompositionDrawingSurface;
  helpers : list DeviceLostHelper;
  locks : list bool;               (* Lock objects: is a session open? *)
  next_token : nat;                (* event registration tokens *)
  trace : list Event }.

Definition empty_world : World := mkWorld [] [] [] [] [] 0 [].

(** ** The fields of SurfaceFactory

    A [T^] handle is [option nat]: [None] is nullptr, [Some i] points to
    the i-th object of its kind in the world. *)
Record SurfaceFactory := mkFactory {
  m_compositor : option Compositor;
  m_drawingLock : option nat;
  m_isGraphicsDeviceCreator : bool;
  m_deviceLostHelper : option nat;
  m_canvasDevice : option nat;
  m_graphicsDevice : option nat;
  OnDeviceLostHandler : nat;
  OnRenderingDeviceReplacedHandler : nat }.

(** A ref class starts with all fields zero. *)
Definition new_factory : SurfaceFactory :=
  mkFactory None None false None None None 0 0.

Record State := mkState { self : SurfaceFactory; env : World }.

(** ** Exceptions and the monad *)

Inductive Exception :=
  | NullReferenceException      (* -> through a null handle *)
  | InvalidArgumentException    (* E_INVALIDARG from the backend *)
  | ObjectDisposedException     (* use of a closed backend object *)
  | BackendFailure              (* decode or draw failure in the backend *)
  | Deadlock.                   (* acquiring a lock whose session is open:
                                   the call never returns *)

Inductive res (T : Type) :=
  | Ok (a : T)
  | Throw (e : Exception).
Arguments Ok {T} a.
Arguments Throw {T} e.

Definition M (T : Type) : Type := State -> res T * State.

Definition ret {T} (a : T) : M T := fun s => (Ok a, s).
Definition throw {T} (e : Exception) : M T := fun s => (Throw e, s).
Definition bind {T U} (m : M T) (k : T -> M U) : M U :=
  fun s => match m s with
           | (Ok a, s') => k a s'
           | (Throw e, s') => (Throw e, s')
           end.

Declare Scope fac_scope.
Delimit Scope fac_scope with fac.
Notation "x <- m ;; k" := (bind m (fun x => k))
  (at level 100, m at next level, k at level 200, right associativity) : fac_scope.
Notation "m ;; k" := (bind m (fun _ => k))
  (at level 100, k at level 200, right associativity) : fac_scope.
Open Scope fac_scope.

(** Runs [m], then [cleanup], whatever [m] did: the destructor of a scoped
    object. *)
Definition scoped {T} (m : M T) (cleanup : State -> State) : M T :=
  fun s => let (r, s') := m s in (r, cleanup s').

(** Runs [m] and hands its outcome over as a value: what a task does with
    the exception of its body. *)
Definition capture {T} (m : M T) : M (res T) :=
  fun s => let (r, s') := m s in (Ok r, s').

Definition lift {T} (r : res T) : M T := fun s => (r, s).

(** Reading a field of [this]. *)
Definition this {T} (field : SurfaceFactory -> T) : M T :=
  fun s => (Ok (field (self s)), s).

(** [h->...]: a null handle raises. *)
Definition deref (h : option nat) : M nat :=
  match h with
  | Some i => ret i
  | None => throw NullReferenceException
  end.

(** A handle passed to a backend function: null is an invalid argument. *)
Definition arg (h : option nat) : M nat :=
  match h with
  | Some i => ret i
  | None => throw InvalidArgumentException
  end.

Definition update_self (f : SurfaceFactory -> SurfaceFactory) : M unit :=
  fun s => (Ok tt, mkState (f (self s)) (env s)).

Definition update_env (f : World -> World) : State -> State :=
  fun s => mkState (self s) (f (env s)).

Definition modify (f : World -> World) : M unit :=
  fun s => (Ok tt, update_env f s).

Definition world {T} (field : World -> T) : M T :=
  fun s => (Ok (field (env s)), s).

(** ** Field assignments *)

Definition set_m_compositor (v : option Compositor) (f : SurfaceFactory) :=
  mkFactory v (m_drawingLock f) (m_isGraphicsDeviceCreator f)
            (m_deviceLostHelper f) (m_canvasDevice f) (m_graphicsDevice f)
            (OnDeviceLostHandler f) (OnRenderingDeviceReplacedHandler f).
Definition set_m_drawingLock (v : option nat) (f : SurfaceFactory) :=
  mkFactory (m_compositor f) v (m_isGraphicsDeviceCreator f)
            (m_deviceLostHelper f) (m_canvasDevice f) (m_graphicsDevice f)
            (OnDeviceLostHandler f) (OnRenderingDeviceReplacedHandler f).
Definition set_m_isGraphicsDeviceCreator (v : bool) (f : SurfaceFactory) :=
  mkFactory (m_compositor f) (m_drawingLock f) v
            (m_deviceLostHelper f) (m_canvasDevice f) (m_graphicsDevice f)
            (OnDeviceLostHandler f) (OnRenderingDeviceReplacedHandler f).
Definition set_m_deviceLostHelper (v : option nat) (f : SurfaceFactory) :=
  mkFactory (m_compositor f) (m_drawingLock f) (m_isGraphicsDeviceCreator f)
            v (m_canvasDevice f) (m_graphicsDevice f)
            (OnDeviceLostHandler f) (OnRenderingDeviceReplacedHandler f).
Definition set_m_canvasDevice (v : option nat) (f : SurfaceFactory) :=
  mkFactory (m_compositor f) (m_drawingLock f) (m_isGraphicsDeviceCreator f)
            (m_deviceLostHelper f) v (m_graphicsDevice f)
            (OnDeviceLostHandler f) (OnRenderingDeviceReplacedHandler f).
Definition set_m_graphicsDevice (v : option nat) (f : SurfaceFactory) :=
  mkFactory (m_compositor f) (m_drawingLock f) (m_isGraphicsDeviceCreator f)
            (m_deviceLostHelper f) (m_canvasDevice f) v
            (OnDeviceLostHandler f) (OnRenderingDeviceReplacedHandler f).
Definition set_OnDeviceLostHandler (v : nat) (f : SurfaceFactory) :=
  mkFactory (m_compositor f) (m_drawingLock f) (m_isGraphicsDeviceCreator f)
            (m_deviceLostHelper f) (m_canvasDevice f) (m_graphicsDevice f)
            v (OnRenderingDeviceReplacedHandler f).
Definition set_OnRenderingDeviceReplacedHandler (v : nat) (f : SurfaceFactory) :=
  mkFactory (m_compositor f) (m_drawingLock f) (m_isGraphicsDeviceCreator f)
            (m_deviceLostHelper f) (m_canvasDevice f) (m_graphicsDevice f)
            (OnDeviceLostHandler f) v.

Definition with_canvasDevices (f : list CanvasDevice -> list CanvasDevice) (w : World) :=
  mkWorld (f (canvasDevices w)) (graphicsDevices w) (surfaces w) (helpers w)
          (locks w) (next_token w) (trace w).
Definition with_graphicsDevices
  (f : list CompositionGraphicsDevice -> list CompositionGraphicsDevice) (w : World) :=
  mkWorld (canvasDevices w) (f (graphicsDevices w)) (surfaces w) (helpers w)
          (locks w) (next_token w) (trace w).
Definition with_surfaces
  (f : list CompositionDrawingSurface -> list CompositionDrawingSurface) (w : World) :=
  mkWorld (canvasDevices w) (graphicsDevices w) (f (surfaces w)) (helpers w)
          (locks w) (next_token w) (trace w).
Definition with_helpers (f : list DeviceLostHelper -> list DeviceLostHelper) (w : World) :=
  mkWorld (canvasDevices w) (graphicsDevices w) (surfaces w) (f (helpers w))
          (locks w) (next_token w) (trace w).
Definition with_locks (f : list bool -> list bool) (w : World) :=
  mkWorld (canvasDevices w) (graphicsDevices w) (surfaces w) (helpers w)
          (f (locks w)) (next_token w) (trace w).
Definition bump_token (w : World) :=
  mkWorld (canvasDevices w) (graphicsDevices w) (surfaces w) (helpers w)
          (locks w) (S (next_token w)) (trace w).
Definition emit (e : Event) (w : World) :=
  mkWorld (canvasDevices w) (graphicsDevices w) (surfaces w) (helpers w)
          (locks w) (next_token w) (trace w ++ [e]).

(** Looking an object up.  A handle that names no object cannot be built in
    C++/CX, where a handle keeps its object alive; the model still has to
    answer. *)
Definition fetch {T} (heap : World -> list T) (i : nat) : M T :=
  fun s => match heap (env s) !! i with
           | Some x => (Ok x, s)
           | None => (Throw InvalidArgumentException, s)
           end.

Definition when (b : bool) (m : M unit) : M unit := if b then m else ret tt.

(** ** The backend *)

(** Modelled from the spec: Lock is a class of this repository that is not
    in the source file.  "acquire() returns a scoped token; releasing the
    token (on any exit path, including failure) unlocks. [...] nested
    acquisition on the same thread is undefined/deadlocking". *)
Definition Lock_new : M nat :=
  l <- world (fun w => length (locks w)) ;;
  modify (with_locks (fun ls => ls ++ [false])) ;;
  ret l.

Definition GetLockSession (l : nat) : M unit :=
  held <- fetch locks l ;;
  if held : bool then throw Deadlock
  else modify (fun w => emit (EvLock l) (with_locks (fun ls => <[l:=true]> ls) w)).

Definition release_session (l : nat) : State -> State :=
  update_env (fun w => emit (EvUnlock l) (with_locks (fun ls => <[l:=false]> ls) w)).

(** [{ auto lockSession = m_drawingLock->GetLockSession(); body }] *)
Definition under_lock {T} (body : M T) : M T :=
  l <- (h <- this m_drawingLock ;; deref h) ;;
  GetLockSession l ;;
  scoped body (release_session l).

(** [ref new CanvasDevice(forceSoftwareRenderer)] *)
Definition CanvasDevice_new (forceSoftwareRenderer : bool) : M nat :=
  c <- world (fun w => length (canvasDevices w)) ;;
  modify (fun w => emit (EvNewCanvasDevice c forceSoftwareRenderer)
            (with_canvasDevices
               (fun l => l ++ [mkCanvasDevice forceSoftwareRenderer false]) w)) ;;
  ret c.

Definition open_canvasDevice (c : nat) : M CanvasDevice :=
  d <- fetch canvasDevices c ;;
  if cd_closed d then throw ObjectDisposedException else ret d.

Definition open_graphicsDevice (g : nat) : M CompositionGraphicsDevice :=
  d <- fetch graphicsDevices g ;;
  if gd_closed d then throw ObjectDisposedException else ret d.

(** [device->ForceSoftwareRenderer] *)
Definition get_ForceSoftwareRenderer (c : nat) : M bool :=
  d <- open_canvasDevice c ;; ret (ForceSoftwareRenderer d).

(** [device->~CanvasDevice()] *)
Definition CanvasDevice_close (c : nat) : M unit :=
  d <- fetch canvasDevices c ;;
  modify (fun w => emit (EvCloseCanvasDevice c)
            (with_canvasDevices
               (fun l => <[c := mkCanvasDevice (ForceSoftwareRenderer d) true]> l) w)).

(** Modelled from the spec: the members of DeviceLostHelper (see the
    record above). *)
Definition DeviceLostHelper_new : M nat :=
  h <- world (fun w => length (helpers w)) ;;
  modify (with_helpers (fun l => l ++ [mkHelper None []])) ;;
  ret h.

Definition DeviceLost_add (h : nat) : M nat :=
  d <- fetch helpers h ;;
  tok <- world next_token ;;
  modify (fun w => bump_token
            (with_helpers
               (fun l => <[h := mkHelper (dl_watched d) (dl_handlers d ++ [tok])]> l) w)) ;;
  ret tok.

Definition WatchDevice (h c : nat) : M unit :=
  d <- fetch helpers h ;;
  modify (fun w => emit (EvWatchDevice h c)
            (with_helpers (fun l => <[h := mkHelper (Some c) (dl_handlers d)]> l) w)).

Definition StopWatchingCurrentDevice (h : nat) : M unit :=
  d <- fetch helpers h ;;
  modify (fun w => emit (EvStopWatching h)
            (with_helpers (fun l => <[h := mkHelper None (dl_handlers d)]> l) w)).

(** [CanvasComposition::CreateCompositionGraphicsDevice(compositor, device)] *)
Definition CreateCompositionGraphicsDevice (compositor : Compositor) (device : option nat)
  : M nat :=
  c <- arg device ;;
  open_canvasDevice c ;;
  g <- world (fun w => length (graphicsDevices w)) ;;
  modify (fun w => emit (EvNewGraphicsDevice g compositor c)
            (with_graphicsDevices
               (fun l => l ++ [mkGraphicsDevice compositor c [] false]) w)) ;;
  ret g.

(** [graphicsDevice->Compositor] *)
Definition get_Compositor (g : nat) : M Compositor :=
  d <- open_graphicsDevice g ;; ret (gd_compositor d).

(** [graphicsDevice->RenderingDeviceReplaced += handler] *)
Definition RenderingDeviceReplaced_add (g : nat) : M nat :=
  d <- open_graphicsDevice g ;;
  tok <- world next_token ;;
  modify (fun w => emit (EvSubscribe g tok) (bump_token
            (with_graphicsDevices
               (fun l => <[g := mkGraphicsDevice (gd_compositor d) (gd_canvasDevice d)
                                  (gd_handlers d ++ [tok]) (gd_closed d)]> l) w))) ;;
  ret tok.

(** [graphicsDevice->RenderingDeviceReplaced -= token] *)
Definition RenderingDeviceReplaced_remove (g tok : nat) : M unit :=
  d <- open_graphicsDevice g ;;
  modify (fun w => emit (EvUnsubscribe g tok)
            (with_graphicsDevices
               (fun l => <[g := mkGraphicsDevice (gd_compositor d) (gd_canvasDevice d)
                                  (filter (fun t => t ≠ tok) (gd_handlers d))
                                  (gd_closed d)]> l) w)).

(** [graphicsDevice->~CompositionGraphicsDevice()] *)
Definition GraphicsDevice_close (g : nat) : M unit :=
  d <- fetch graphicsDevices g ;;
  modify (fun w => emit (EvCloseGraphicsDevice g)
            (with_graphicsDevices
               (fun l => <[g := mkGraphicsDevice (gd_compositor d) (gd_canvasDevice d)
                                  (gd_handlers d) true]> l) w)).

(** [CanvasComposition::GetCanvasDevice(graphicsDevice)] *)
Definition GetCanvasDevice (graphicsDevice : option nat) : M nat :=
  g <- arg graphicsDevice ;;
  d <- open_graphicsDevice g ;;
  ret (gd_canvasDevice d).

(** [CanvasComposition::SetCanvasDevice(graphicsDevice, device)] *)
Definition SetCanvasDevice (graphicsDevice device : option nat) : M unit :=
  g <- arg graphicsDevice ;;
  c <- arg device ;;
  d <- open_graphicsDevice g ;;
  open_canvasDevice c ;;
  modify (fun w => emit (EvSetCanvasDevice g c)
            (with_graphicsDevices
               (fun l => <[g := mkGraphicsDevice (gd_compositor d) c
                                  (gd_handlers d) (gd_closed d)]> l) w)).

(** [graphicsDevice->CreateDrawingSurface(size, format, alphaMode)].  The
    source does not validate the size and the backend is taken to accept
    every size, (0,0) included. *)
Definition CreateDrawingSurface (g : nat) (size : Size) (format : DirectXPixelFormat)
  (alpha : DirectXAlphaMode) : M nat :=
  open_graphicsDevice g ;;
  s <- world (fun w => length (surfaces w)) ;;
  modify (fun w => emit (EvCreateDrawingSurface g s size format alpha)
            (with_surfaces (fun l => l ++ [mkSurface g size format alpha [] None]) w)) ;;
  ret s.

(** [CanvasComposition::Resize(surface, size)] *)
Definition Resize (surface : nat) (size : Size) : M unit :=
  d <- fetch surfaces surface ;;
  modify (fun w => emit (EvResize surface size)
            (with_surfaces
               (fun l => <[surface := mkSurface (surf_device d) size (surf_format d)
                                        (surf_alpha d) (surf_content d)
                                        (surf_session d)]> l) w)).

(** [CanvasComposition::CreateDrawingSession(surface)], the session's
    drawing calls, and the end of the session when its variable goes out
    of scope. *)
Definition set_session (d : CompositionDrawingSurface) (content : list Paint)
  (session : option (list Paint)) : CompositionDrawingSurface :=
  mkSurface (surf_device d) (surf_size d) (surf_format d) (surf_alpha d) content session.

Definition CreateDrawingSession (surface : nat) : M unit :=
  d <- fetch surfaces surface ;;
  match surf_session d with
  | Some _ => throw BackendFailure
  | None =>
      modify (fun w => emit (EvBeginDraw surface)
                (with_surfaces
                   (fun l => <[surface := set_session d (surf_content d) (Some [])]> l) w))
  end.

Definition session_paint (surface : nat) (p : Paint) : M unit :=
  d <- fetch surfaces surface ;;
  match surf_session d with
  | None => throw ObjectDisposedException
  | Some ops =>
      modify (fun w => emit (EvPaint surface p)
                (with_surfaces
                   (fun l => <[surface := set_session d (surf_content d)
                                            (Some (ops ++ [p]))]> l) w))
  end.

Definition Clear (surface : nat) (c : Color) : M unit :=
  session_paint surface (PClear c).

Definition DrawImage (surface : nat) (bitmap : CanvasBitmap) (dest src : Rect)
  (opacity : float) (interpolation : CanvasImageInterpolation) : M unit :=
  session_paint surface (PDrawImage bitmap dest src opacity interpolation).

Definition end_session (surface : nat) : State -> State :=
  update_env (fun w =>
    match surfaces w !! surface with
    | Some d =>
        match surf_session d with
        | Some ops =>
            emit (EvEndDraw surface)
              (with_surfaces (fun l => <[surface := set_session d ops None]> l) w)
        | None => w
        end
    | None => w
    end).

(** [{ auto session = CanvasComposition::CreateDrawingSession(surface); body }] *)
Definition drawing_session {T} (surface : nat) (body : M T) : M T :=
  CreateDrawingSession surface ;;
  scoped body (end_session surface).

(** Modelled from the spec: CanvasBitmap::CreateFromBytes belongs to the
    graphics backend.  "decodes a raw premultiplied-BGRA byte buffer of the
    given pixel dimensions directly into a bitmap [...]. Fails with an
    InvalidArgument condition if bytes.length != width*height*4." *)
Definition CreateFromBytes (device : nat) (bytes : list byte)
  (widthInPixels heightInPixels : Z) (format : DirectXPixelFormat) : M CanvasBitmap :=
  open_canvasDevice device ;;
  if (Z.of_nat (length bytes) =? widthInPixels * heightInPixels * 4)%Z then
    modify (emit (EvCreateBitmap device (length bytes) widthInPixels heightInPixels)) ;;
    ret (mkBitmap (FromBytes device bytes widthInPixels heightInPixels format)
                  (mkSize (Fin widthInPixels) (Fin heightInPixels)))
  else throw InvalidArgumentException.

(** ** SurfaceFactory *)

(** Lines 90-108. *)
Definition CreateDevice (options : SurfaceFactoryOptions) : M unit :=
  compositor <- this m_compositor ;;
  creator <- this m_isGraphicsDeviceCreator ;;
  match compositor with
  | Some comp =>
      when creator (
        canvasDevice <- this m_canvasDevice ;;
        when (bool_decide (canvasDevice = None)) (
          c <- CanvasDevice_new (UseSoftwareRenderer options) ;;
          update_self (set_m_canvasDevice (Some c)) ;;
          h <- (h <- this m_deviceLostHelper ;; deref h) ;;
          WatchDevice h c) ;;
        graphicsDevice <- this m_graphicsDevice ;;
        when (bool_decide (graphicsDevice = None)) (
          canvasDevice <- this m_canvasDevice ;;
          g <- CreateCompositionGraphicsDevice comp canvasDevice ;;
          update_self (set_m_graphicsDevice (Some g)) ;;
          tok <- RenderingDeviceReplaced_add g ;;
          update_self (set_OnRenderingDeviceReplacedHandler tok)))
  | None => ret tt
  end.

(** Lines 41-51: the constructor of the owning mode. *)
Definition SurfaceFactory_compositor (compositor : option Compositor)
  (options : SurfaceFactoryOptions) : M unit :=
  update_self (set_m_compositor compositor) ;;
  l <- Lock_new ;;
  update_self (set_m_drawingLock (Some l)) ;;
  update_self (set_m_isGraphicsDeviceCreator true) ;;
  h <- DeviceLostHelper_new ;;
  update_self (set_m_deviceLostHelper (Some h)) ;;
  tok <- (h <- (h <- this m_deviceLostHelper ;; deref h) ;; DeviceLost_add h) ;;
  update_self (set_OnDeviceLostHandler tok) ;;
  CreateDevice options.

(** Lines 53-69: the constructor of the borrowing mode. *)
Definition SurfaceFactory_graphicsDevice (graphicsDevice lock : option nat) : M unit :=
  comp <- (g <- deref graphicsDevice ;; get_Compositor g) ;;
  update_self (set_m_compositor (Some comp)) ;;
  update_self (set_m_graphicsDevice graphicsDevice) ;;
  update_self (set_m_isGraphicsDeviceCreator false) ;;
  match lock with
  | None => l <- Lock_new ;; update_self (set_m_drawingLock (Some l))
  | Some _ => update_self (set_m_drawingLock lock)
  end ;;
  tok <- (g <- (g <- this m_graphicsDevice ;; deref g) ;; RenderingDeviceReplaced_add g) ;;
  update_self (set_OnRenderingDeviceReplacedHandler tok).

(** [ref new SurfaceFactory(...)]: the constructor runs on a fresh object. *)
Definition ref_new (constructor : M unit) (w : World) : res unit * State :=
  constructor (mkState new_factory w).

(** Lines 14-21. *)
Definition CreateFromCompositor (compositor : option Compositor) (w : World)
  : res unit * State :=
  let options := mkOptions false in
  ref_new (SurfaceFactory_compositor compositor options) w.

(** Lines 23-27. *)
Definition CreateFromCompositor_options (compositor : option Compositor)
  (options : SurfaceFactoryOptions) (w : World) : res unit * State :=
  ref_new (SurfaceFactory_compositor compositor options) w.

(** Lines 35-39. *)
Definition CreateFromGraphicsDevice_lock (graphicsDevice lock : option nat) (w : World)
  : res unit * State :=
  ref_new (SurfaceFactory_graphicsDevice graphicsDevice lock) w.

(** Lines 29-33. *)
Definition CreateFromGraphicsDevice (graphicsDevice : option nat) (w : World)
  : res unit * State :=
  ref_new (SurfaceFactory_graphicsDevice graphicsDevice None) w.

(** Lines 110-120. *)
Definition OnDeviceLost : M unit :=
  softwareRenderer <- (c <- (c <- this m_canvasDevice ;; deref c) ;;
                       get_ForceSoftwareRenderer c) ;;
  c' <- CanvasDevice_new softwareRenderer ;;
  update_self (set_m_canvasDevice (Some c')) ;;
  (h <- (h <- this m_deviceLostHelper ;; deref h) ;;
   c <- (c <- this m_canvasDevice ;; arg c) ;;
   WatchDevice h c) ;;
  g <- this m_graphicsDevice ;;
  c <- this m_canvasDevice ;;
  SetCanvasDevice g c.

(** Lines 167-189. *)
Definition CreateSurface (size : Size) : M nat :=
  let surfaceSize := if IsEmpty size then mkSize (Fin 0) (Fin 0) else size in
  graphicsDevice <- this m_graphicsDevice ;;
  under_lock (
    g <- deref graphicsDevice ;;
    CreateDrawingSurface g surfaceSize B8G8R8A8UIntNormalized Premultiplied).

(** Lines 215-241. *)
Definition DrawBitmap (surface : nat) (canvasBitmap : CanvasBitmap) (size : Size)
  (interpolation : InterpolationMode) : M unit :=
  let bitmapSize := bmp_size canvasBitmap in
  under_lock (
    surfaceSize <- (if IsEmpty size
                    then Resize surface bitmapSize ;; ret bitmapSize
                    else ret size) ;;
    drawing_session surface (
      let surfaceRect := mkRect (Fin 0) (Fin 0) (Width surfaceSize) (Height surfaceSize) in
      let bitmapRect := mkRect (Fin 0) (Fin 0) (Width bitmapSize) (Height bitmapSize) in
      let canvasInterpolation := GetCanvasImageInterpolation interpolation in
      Clear surface Transparent ;;
      DrawImage surface canvasBitmap surfaceRect bitmapRect (Fin 1) canvasInterpolation)).

(** Lines 243-249. *)
Definition ResizeSurface (surface : nat) (size : Size) : M unit :=
  under_lock (Resize surface size).

(** Lines 364-390. *)
Definition Uninitialize : M unit :=
  under_lock (
    update_self (set_m_compositor None) ;;
    canvasDevice <- this m_canvasDevice ;;
    match canvasDevice with
    | Some c =>
        (h <- (h <- this m_deviceLostHelper ;; deref h) ;; StopWatchingCurrentDevice h) ;;
        update_self (set_m_deviceLostHelper None) ;;
        CanvasDevice_close c ;;
        update_self (set_m_canvasDevice None)
    | None => ret tt
    end ;;
    graphicsDevice <- this m_graphicsDevice ;;
    match graphicsDevice with
    | Some g =>
        (tok <- this OnRenderingDeviceReplacedHandler ;;
         RenderingDeviceReplaced_remove g tok) ;;
        creator <- this m_isGraphicsDeviceCreator ;;
        when creator (GraphicsDevice_close g) ;;
        update_self (set_m_graphicsDevice None)
    | None => ret tt
    end) ;;
  update_self (set_m_drawingLock None).

(** Lines 353-362. *)
Definition CreateSurfaceFromBytes (bytes : list byte) (widthInPixels heightInPixels : Z)
  (size : Size) (interpolation : InterpolationMode) : M nat :=
  surface <- CreateSurface size ;;
  canvasDevice <- (g <- this m_graphicsDevice ;; GetCanvasDevice g) ;;
  canvasBitmap <- CreateFromBytes canvasDevice bytes widthInPixels heightInPixels
                    B8G8R8A8UIntNormalized ;;
  DrawBitmap surface canvasBitmap size interpolation ;;
  ret surface.

(** Lines 348-351. *)
Definition CreateSurfaceFromBytes_size (bytes : list byte) (widthInPixels heightInPixels : Z)
  (size : Size) : M nat :=
  CreateSurfaceFromBytes bytes widthInPixels heightInPixels size Linear.

(** Lines 343-346. *)
Definition CreateSurfaceFromBytes_dims (bytes : list byte) (widthInPixels heightInPixels : Z)
  : M nat :=
  CreateSurfaceFromBytes_size bytes widthInPixels heightInPixels Size_Empty.

(** *** Drawing from a URI

    [DrawSurface] is a coroutine.  It runs on the caller's thread up to
    [co_await CanvasBitmap::LoadAsync], which is its only suspension point,
    and is resumed with what the load produced.  The outcome of a load is
    decided by the backend: it is a parameter here. *)
Inductive Suspension :=
  | Completed
  | AwaitingLoadAsync (canvasDevice : nat) (uri : Uri).

(** Lines 191-213, up to the suspension point. *)
Definition DrawSurface_begin (surface : nat) (uri : option Uri) : M Suspension :=
  canvasDevice <- (g <- this m_graphicsDevice ;; GetCanvasDevice g) ;;
  match uri with
  | Some u => ret (AwaitingLoadAsync canvasDevice u)
  | None =>
      under_lock (
        let size := mkSize (Fin 1) (Fin 1) in
        Resize surface size ;;
        drawing_session surface (Clear surface Transparent)) ;;
      ret Completed
  end.

(** Lines 196-197, from the suspension point on. *)
Definition DrawSurface_resume (surface : nat) (loaded : res CanvasBitmap) (size : Size)
  (interpolation : InterpolationMode) : M unit :=
  canvasBitmap <- lift loaded ;;
  DrawBitmap surface canvasBitmap size interpolation.

(** Modelled from the spec: UriSurface is a class of this repository that
    is not in the source file.  It "remembers {source URI, requested size,
    interpolation mode} and exposes a redraw operation that re-invokes the
    factory's draw pipeline with the remembered parameters"; it "wraps a
    DrawingSurface plus the parameters needed to regenerate its content". *)
Record UriSurface := mkUriSurface {
  us_surface : nat;
  us_source : option Uri;
  us_size : Size;
  us_interpolation : InterpolationMode }.

Section Loading.

(** What [CanvasBitmap::LoadAsync(device, uri)] completes with. *)
Variable LoadAsync : nat -> Uri -> res CanvasBitmap.

(** The task of [DrawSurface], run until it has settled. *)
Definition DrawSurface (surface : nat) (uri : option Uri) (size : Size)
  (interpolation : InterpolationMode) : M unit :=
  k <- DrawSurface_begin surface uri ;;
  match k with
  | Completed => ret tt
  | AwaitingLoadAsync canvasDevice u =>
      DrawSurface_resume surface (LoadAsync canvasDevice u) size interpolation
  end.

(** Lines 132-140.  The task is dropped: its exception, if any, is never
    observed by the caller. *)
Definition CreateSurfaceFromUri (uri : option Uri) (size : Size)
  (interpolation : InterpolationMode) : M nat :=
  surface <- CreateSurface size ;;
  ignored <- capture (DrawSurface surface uri size interpolation) ;;
  ret surface.

(** Lines 127-130. *)
Definition CreateSurfaceFromUri_size (uri : option Uri) (size : Size) : M nat :=
  CreateSurfaceFromUri uri size Linear.

(** Lines 122-125. *)
Definition CreateSurfaceFromUri_uri (uri : option Uri) : M nat :=
  CreateSurfaceFromUri_size uri Size_Empty.

(** Lines 152-165.  [drawTask.get()] rethrows what the task threw. *)
Definition CreateSurfaceFromUriAsync (uri : option Uri) (size : Size)
  (interpolation : InterpolationMode) : M nat :=
  surface <- CreateSurface size ;;
  DrawSurface surface uri size interpolation ;;
  ret surface.

(** Lines 147-150. *)
Definition CreateSurfaceFromUriAsync_size (uri : option Uri) (size : Size) : M nat :=
  CreateSurfaceFromUriAsync uri size Linear.

(** Lines 142-145. *)
Definition CreateSurfaceFromUriAsync_uri (uri : option Uri) : M nat :=
  CreateSurfaceFromUriAsync_size uri Size_Empty.

(** Modelled from the spec: UriSurface::Create and
    UriSurface::RedrawSurfaceAsync (see the record above). *)
Definition UriSurface_Create (uri : option Uri) (size : Size)
  (interpolation : InterpolationMode) : M UriSurface :=
  surface <- CreateSurface size ;;
  ret (mkUriSurface surface uri size interpolation).

Definition RedrawSurfaceAsync (u : UriSurface) : M unit :=
  DrawSurface (us_surface u) (us_source u) (us_size u) (us_interpolation u).

(** Lines 266-272. *)
Definition CreateUriSurface (uri : option Uri) (size : Size)
  (interpolation : InterpolationMode) : M UriSurface :=
  uriSurface <- UriSurface_Create uri size interpolation ;;
  ignored <- capture (RedrawSurfaceAsync uriSurface) ;;
  ret uriSurface.

(** Lines 261-264. *)
Definition CreateUriSurface_size (uri : option Uri) (size : Size) : M UriSurface :=
  CreateUriSurface uri size Linear.

(** Lines 256-259. *)
Definition CreateUriSurface_uri (uri : option Uri) : M UriSurface :=
  CreateUriSurface_size uri Size_Empty.

(** Lines 251-254. *)
Definition CreateUriSurface_none : M UriSurface :=
  CreateUriSurface_uri None.

(** Lines 284-297. *)
Definition CreateUriSurfaceAsync (uri : option Uri) (size : Size)
  (interpolation : InterpolationMode) : M UriSurface :=
  uriSurface <- UriSurface_Create uri size interpolation ;;
  RedrawSurfaceAsync uriSurface ;;
  ret uriSurface.

(** Lines 279-282. *)
Definition CreateUriSurfaceAsync_size (uri : option Uri) (size : Size) : M UriSurface :=
  CreateUriSurfaceAsync uri size Linear.

(** Lines 274-277. *)
Definition CreateUriSurfaceAsync_uri (uri : option Uri) : M UriSurface :=
  CreateUriSurfaceAsync_size uri Size_Empty.

End Loading.

(** ** Sample states *)

Definition sample_owner : State := snd (CreateFromCompositor (Some 7) empty_world).

Definition no_bitmap : nat -> Uri -> res CanvasBitmap := fun _ _ => Throw BackendFailure.


(** ** Predicates of the statements *)

(** A state in which the factory can draw: it has a lock that nobody holds
    and an open composition graphics device. *)
Record live (s : State) (l g : nat) (gd : CompositionGraphicsDevice) : Prop := mkLive {
  live_lock : m_drawingLock (self s) = Some l;
  live_free : locks (env s) !! l = Some false;
  live_device : m_graphicsDevice (self s) = Some g;
  live_gd : graphicsDevices (env s) !! g = Some gd;
  live_open : gd_closed gd = false }.

(** ** Work done under the lock

    [guarded l held evs]: along [evs], every backend event happens while a
    session of lock [l] is open, sessions of [l] do not nest, and the last
    one is closed at the end.  [held] says whether a session is open at
    the start. *)
Fixpoint guarded (l : nat) (held : bool) (evs : list Event) : bool :=
  match evs with
  | [] => negb held
  | EvLock l' :: evs =>
      if Nat.eqb l l' then negb held && guarded l true evs else guarded l held evs
  | EvUnlock l' :: evs =>
      if Nat.eqb l l' then held && guarded l false evs else guarded l held evs
  | _ :: evs => held && guarded l held evs
  end.

Definition under_the_lock (l : nat) (evs : list Event) : Prop :=
  guarded l false evs = true.

(** The colour of every pixel of a surface, when its content says so: the
    last session ended with a clear. *)
Definition uniform_color (d : CompositionDrawingSurface) : option Color :=
  match rev (surf_content d) with
  | PClear c :: _ => Some c
  | _ => None
  end.

Definition full_rect (size : Size) : Rect :=
  mkRect (Fin 0) (Fin 0) (Width size) (Height size).

Definition sample_gd : CompositionGraphicsDevice := mkGraphicsDevice 7 0 [1] false.

(** The size [CreateSurface] hands to the backend. *)
Definition initial_size (size : Size) : Size :=
  if IsEmpty size then mkSize (Fin 0) (Fin 0) else size.


Definition one_by_one : Size := mkSize (Fin 1) (Fin 1).

Definition fully_transparent (c : Color) : Prop := A c = 0%Z.

(** The size [DrawBitmap] scales the bitmap to. *)
Definition working_size (size : Size) (canvasBitmap : CanvasBitmap) : Size :=
  if IsEmpty size then bmp_size canvasBitmap else size.

(** What [DrawBitmap] paints. *)
Definition bitmap_paints (canvasBitmap : CanvasBitmap) (dest : Rect)
  (interpolation : InterpolationMode) : list Paint :=
  [PClear Transparent;
   PDrawImage canvasBitmap dest (full_rect (bmp_size canvasBitmap)) (Fin 1)
     (GetCanvasImageInterpolation interpolation)].

Definition sample_surface : State :=
  snd (CreateSurface (mkSize (Fin 10) (Fin 10)) sample_owner).

Definition sample_bitmap : CanvasBitmap :=
  mkBitmap (FromUri 0 "ms-appx:///Assets/logo.png") (mkSize (Fin 2) (Fin 2)).

(** The statement of the drawBitmap clause read on the surface as it is
    after the call: the bitmap went into the surface's own full
    rectangle. *)
Definition draws_into_full_rect (s : State) (surface : nat) (canvasBitmap : CanvasBitmap)
  (size : Size) (interpolation : InterpolationMode) : Prop :=
  exists s' d',
    DrawBitmap surface canvasBitmap size interpolation s = (Ok tt, s') /\
    surfaces (env s') !! surface = Some d' /\
    surf_content d' =
      bitmap_paints canvasBitmap (full_rect (surf_size d')) interpolation.

(** A factory of the owning mode in working order: it holds an open
    rendering device, the helper that watches for its loss, and an open
    composition graphics device that renders with that device. *)
Record owning (s : State) (c h g : nat) (cd : CanvasDevice) (hd : DeviceLostHelper)
  (gd : CompositionGraphicsDevice) : Prop := mkOwning {
  own_creator : m_isGraphicsDeviceCreator (self s) = true;
  own_device : m_canvasDevice (self s) = Some c;
  own_cd : canvasDevices (env s) !! c = Some cd;
  own_cd_open : cd_closed cd = false;
  own_helper : m_deviceLostHelper (self s) = Some h;
  own_hd : helpers (env s) !! h = Some hd;
  own_graphics : m_graphicsDevice (self s) = Some g;
  own_gd : graphicsDevices (env s) !! g = Some gd;
  own_gd_open : gd_closed gd = false;
  own_active : gd_canvasDevice gd = c }.

(** A factory of the borrowing mode in working order: it can draw, and it
    holds no rendering device and no helper of its own. *)
Record borrowing (s : State) (l g : nat) (gd : CompositionGraphicsDevice) : Prop :=
  mkBorrowing {
  bor_creator : m_isGraphicsDeviceCreator (self s) = false;
  bor_no_device : m_canvasDevice (self s) = None;
  bor_no_helper : m_deviceLostHelper (self s) = None;
  bor_live : live s l g gd }.

(** [s'] differs from [s] in surfaces and trace at most. *)
Record unchanged (s s' : State) : Prop := mkUnchanged {
  same_self : self s' = self s;
  same_canvasDevices : canvasDevices (env s') = canvasDevices (env s);
  same_graphicsDevices : graphicsDevices (env s') = graphicsDevices (env s);
  same_helpers : helpers (env s') = helpers (env s);
  same_locks : locks (env s') = locks (env s);
  same_next_token : next_token (env s') = next_token (env s) }.

(** The factory's lock, if it has one, is free. *)
Definition lock_free (s : State) : Prop :=
  forall l, m_drawingLock (self s) = Some l -> locks (env s) !! l = Some false.

(** Computations that touch surfaces and the trace only ... *)
Definition surface_work {T} (m : M T) : Prop :=
  forall s, unchanged s (snd (m s)).

(** ... and computations that may also take the drawing lock, and give it
    back. *)
Definition restoring {T} (m : M T) : Prop :=
  forall s, lock_free s -> unchanged s (snd (m s)).

(** The calls a client, or the backend, can make on a factory before it is
    torn down. *)
Inductive Call :=
  | CallCreateSurface (size : Size)
  | CallResizeSurface (surface : nat) (size : Size)
  | CallDrawBitmap (surface : nat) (canvasBitmap : CanvasBitmap) (size : Size)
                   (interpolation : InterpolationMode)
  | CallDrawSurface (surface : nat) (uri : option Uri) (size : Size)
                    (interpolation : InterpolationMode)
  | CallCreateSurfaceFromBytes (bytes : list byte) (widthInPixels heightInPixels : Z)
                               (size : Size) (interpolation : InterpolationMode)
  | CallCreateSurfaceFromUri (uri : option Uri) (size : Size)
                             (interpolation : InterpolationMode)
  | CallCreateSurfaceFromUriAsync (uri : option Uri) (size : Size)
                                  (interpolation : InterpolationMode)
  | CallCreateUriSurface (uri : option Uri) (size : Size)
                         (interpolation : InterpolationMode)
  | CallCreateUriSurfaceAsync (uri : option Uri) (size : Size)
                              (interpolation : InterpolationMode)
  | CallCreateDevice (options : SurfaceFactoryOptions)
  | CallOnDeviceLost.

Definition call (LoadAsync : nat -> Uri -> res CanvasBitmap) (c : Call) (s : State)
  : State :=
  match c with
  | CallCreateSurface size => snd (CreateSurface size s)
  | CallResizeSurface surface size => snd (ResizeSurface surface size s)
  | CallDrawBitmap surface b size i => snd (DrawBitmap surface b size i s)
  | CallDrawSurface surface uri size i => snd (DrawSurface LoadAsync surface uri size i s)
  | CallCreateSurfaceFromBytes bytes w h size i =>
      snd (CreateSurfaceFromBytes bytes w h size i s)
  | CallCreateSurfaceFromUri uri size i => snd (CreateSurfaceFromUri LoadAsync uri size i s)
  | CallCreateSurfaceFromUriAsync uri size i =>
      snd (CreateSurfaceFromUriAsync LoadAsync uri size i s)
  | CallCreateUriSurface uri size i => snd (CreateUriSurface LoadAsync uri size i s)
  | CallCreateUriSurfaceAsync uri size i =>
      snd (CreateUriSurfaceAsync LoadAsync uri size i s)
  | CallCreateDevice options => snd (CreateDevice options s)
  | CallOnDeviceLost => snd (OnDeviceLost s)
  end.

Definition calls (LoadAsync : nat -> Uri -> res CanvasBitmap) (cs : list Call) (s : State)
  : State :=
  fold_left (fun s c => call LoadAsync c s) cs s.

Definition sample_torn_down : State := snd (Uninitialize sample_owner).

(** The lock a factory of the borrowing mode ends up with: the one it was
    given, or a new one. *)
Definition borrowed_lock (lock : option nat) (w : World) : nat :=
  match lock with
  | Some l => l
  | None => length (locks w)
  end.

Definition sample_borrower : State :=
  snd (CreateFromGraphicsDevice_lock (Some 0) (Some 0) (env sample_owner)).

(** The spec's reading of the optional parameters: "a configuration
    structure with named fields and documented defaults (size: unspecified,
    interpolation: linear)".  [with_defaults full o] is the full form of a
    creation operation called with what [o] gives, or the default where [o]
    gives nothing. *)
Record CreationOptions := mkCreationOptions {
  opt_size : option Size;
  opt_interpolation : option InterpolationMode }.

Definition with_defaults {T} (full : Size -> InterpolationMode -> M T)
  (o : CreationOptions) : M T :=
  full (default Size_Empty (opt_size o)) (default Linear (opt_interpolation o)).

(** ** Notions of the further properties *)

(** The calls that create or draw surfaces. *)
Definition is_drawing_call (c : Call) : bool :=
  match c with
  | CallCreateDevice _ | CallOnDeviceLost => false
  | _ => true
  end.

(** [n] device-lost notifications handled one after the other. *)
Fixpoint device_losses (n : nat) (s : State) : State :=
  match n with
  | 0 => s
  | S n => device_losses n (snd (OnDeviceLost s))
  end.

Definition sample_no_compositor : State :=
  snd (CreateFromCompositor_options None (mkOptions true) empty_world).

Definition sample_loader : nat -> Uri -> res CanvasBitmap :=
  fun c u => Ok (mkBitmap (FromUri c u) (mkSize (Fin 2) (Fin 2))).


(** ** Running the monad *)

Lemma bind_ok {T U} (m : M T) (k : T -> M U) s a s' :
  m s = (Ok a, s') -> bind m k s = k a s'.
Proof. unfold bind. intros ->. reflexivity. Qed.

Lemma bind_throw {T U} (m : M T) (k : T -> M U) s e s' :
  m s = (Throw e, s') -> bind m k s = (Throw e, s').
Proof. unfold bind. intros ->. reflexivity. Qed.

Lemma fetch_ok {T} (heap : World -> list T) i x s :
  heap (env s) !! i = Some x -> fetch heap i s = (Ok x, s).
Proof. unfold fetch. intros ->. reflexivity. Qed.


(** Opens a state up into its fields, so that a run can be computed. *)
Ltac open_state s :=
  let f := fresh "f" in let w := fresh "w" in
  destruct s as [f w]; destruct f, w; simpl in *; subst.

Lemma under_lock_run {T} (body : M T) s l :
  m_drawingLock (self s) = Some l ->
  locks (env s) !! l = Some false ->
  under_lock body s =
  scoped body (release_session l)
    (update_env (fun w => emit (EvLock l) (with_locks (fun ls => <[l:=true]> ls) w)) s).
Proof.
  intros Hl Hf. unfold under_lock.
  erewrite bind_ok; last first.
  { erewrite bind_ok; [|reflexivity]. rewrite Hl. reflexivity. }
  unfold GetLockSession.
  erewrite bind_ok; last first.
  { erewrite bind_ok; [|apply fetch_ok, Hf]. reflexivity. }
  reflexivity.
Qed.


Ltac run_lock Hl Hf :=
  rewrite (under_lock_run _ _ _ Hl Hf); unfold scoped.

Lemma CreateSurface_run s l g gd size :
  live s l g gd ->
  CreateSurface size s =
  (Ok (length (surfaces (env s))),
   update_env (fun w =>
     emit (EvUnlock l) (emit
       (EvCreateDrawingSurface g (length (surfaces w)) (initial_size size)
          B8G8R8A8UIntNormalized Premultiplied)
       (emit (EvLock l)
          (with_surfaces
             (fun ss => ss ++ [mkSurface g (initial_size size) B8G8R8A8UIntNormalized
                                 Premultiplied [] None]) w)))) s).
Proof.
  intros [Hl Hf Hg Hgd Hopen]. unfold CreateSurface.
  erewrite bind_ok; [|reflexivity]. run_lock Hl Hf.
  open_state s. unfold bind, deref, CreateDrawingSurface, open_graphicsDevice,
    fetch, bind, world, modify, ret, throw, update_env, release_session, update_env,
    with_surfaces, with_locks, emit; simpl.
  rewrite Hgd, Hopen. simpl. rewrite <- !app_assoc. simpl.
  rewrite list_insert_insert_eq. rewrite list_insert_id by done. reflexivity.
Qed.


Lemma sample_owner_live : live sample_owner 0 0 sample_gd.
Proof. constructor; reflexivity. Qed.

(** C7. For every size S, on a factory that can draw, [CreateSurface S]
    allocates a new drawing surface under the drawing lock: the backend is
    asked, between taking and releasing the lock, for a surface of size S
    when S is specified and of size (0,0) when S is empty, in the B8G8R8A8
    format with premultiplied alpha, and that surface is what is returned. *)
Theorem CreateSurface_allocates s l g gd size :
  live s l g gd ->
  exists s' d evs,
    CreateSurface size s = (Ok (length (surfaces (env s))), s') /\
    surfaces (env s) !! length (surfaces (env s)) = None /\
    surfaces (env s') !! length (surfaces (env s)) = Some d /\
    surf_size d = (if IsEmpty size then mkSize (Fin 0) (Fin 0) else size) /\
    surf_format d = B8G8R8A8UIntNormalized /\
    surf_alpha d = Premultiplied /\
    trace (env s') = trace (env s) ++ evs /\
    EvCreateDrawingSurface g (length (surfaces (env s))) (surf_size d)
      (surf_format d) (surf_alpha d) ∈ evs /\
    under_the_lock l evs.
Proof.
  intros Hlive. rewrite (CreateSurface_run _ _ _ _ size Hlive).
  eexists _, _, _. split; [reflexivity|].
  split; [apply lookup_ge_None_2; lia|].
  split; [simpl; apply list_lookup_middle; reflexivity|].
  repeat (split; [reflexivity|]).
  split; [simpl; rewrite <- !app_assoc; reflexivity|].
  split; [simpl; rewrite !elem_of_cons; auto|].
  unfold under_the_lock. simpl. rewrite Nat.eqb_refl. reflexivity.
Qed.

Lemma CreateSurface_allocates_witness :
  live sample_owner 0 0 sample_gd /\
  fst (CreateSurface (mkSize (Fin 3) (Fin 2)) sample_owner) = Ok 0.
Proof.
  split; [exact sample_owner_live|].
  destruct (CreateSurface_allocates sample_owner 0 0 sample_gd (mkSize (Fin 3) (Fin 2))
              sample_owner_live) as (s' & d & evs & H & _).
  rewrite H. reflexivity.
Defined.

Ltac unfold_backend :=
  unfold DrawSurface_begin, DrawSurface_resume, DrawBitmap, under_lock, GetLockSession,
    drawing_session, scoped,
    Clear, DrawImage, session_paint, CreateDrawingSession, Resize, end_session,
    GetCanvasDevice, CreateFromBytes, open_graphicsDevice, open_canvasDevice, arg, deref,
    this, fetch, bind, world, modify, ret, throw, lift, update_env, release_session,
    update_env, set_session, with_surfaces, with_locks, emit.

Lemma insert_last {T} (l : list T) (x y : T) : <[length l := x]> (l ++ [y]) = l ++ [x].
Proof. induction l as [|a l IH]; simpl; [reflexivity|]. f_equal. exact IH. Qed.

Ltac lookups :=
  repeat first
    [ rewrite list_lookup_insert_eq
        by (rewrite ?length_insert, ?length_app; simpl;
            first [lia | eauto using lookup_lt_Some])
    | rewrite list_lookup_middle by reflexivity
    | rewrite list_insert_insert_eq
    | rewrite insert_last
    | rewrite <- app_assoc
    | progress simpl ].

Lemma DrawSurface_null_run LoadAsync s l g gd surface d size interpolation :
  live s l g gd ->
  surfaces (env s) !! surface = Some d ->
  surf_session d = None ->
  DrawSurface LoadAsync surface None size interpolation s =
  (Ok tt,
   update_env (fun w =>
     mkWorld (canvasDevices w) (graphicsDevices w)
       (<[surface := mkSurface (surf_device d) one_by_one (surf_format d) (surf_alpha d)
                       [PClear Transparent] None]> (surfaces w))
       (helpers w) (locks w) (next_token w)
       (trace w ++ [EvLock l; EvResize surface one_by_one; EvBeginDraw surface;
                    EvPaint surface (PClear Transparent); EvEndDraw surface;
                    EvUnlock l])) s).
Proof.
  intros [Hl Hf Hg Hgd Hopen] Hd Hs.
  open_state s. destruct d. simpl in *. subst.
  unfold DrawSurface. unfold_backend. simpl.
  rewrite Hgd. simpl. rewrite Hopen. simpl. rewrite Hf. simpl. rewrite Hd. lookups.
  rewrite (list_insert_id locks0) by done. reflexivity.
Qed.

(** C5. For every surface with no drawing session open, on a factory that
    can draw, [DrawSurface] with a null URI settles at once: between taking
    and releasing the drawing lock it resizes the surface to 1x1 and clears
    it to [Colors::Transparent], so that afterwards the surface has size
    (1,1) and every pixel of it is fully transparent. *)
Theorem DrawSurface_null_uri_clears LoadAsync s l g gd surface d size interpolation :
  live s l g gd ->
  surfaces (env s) !! surface = Some d ->
  surf_session d = None ->
  exists s' d' c evs,
    DrawSurface LoadAsync surface None size interpolation s = (Ok tt, s') /\
    surfaces (env s') !! surface = Some d' /\
    surf_size d' = mkSize (Fin 1) (Fin 1) /\
    uniform_color d' = Some c /\ fully_transparent c /\
    surf_session d' = None /\
    trace (env s') = trace (env s) ++ evs /\
    EvResize surface (mkSize (Fin 1) (Fin 1)) ∈ evs /\
    EvPaint surface (PClear Transparent) ∈ evs /\
    under_the_lock l evs.
Proof.
  intros Hlive Hd Hs.
  rewrite (DrawSurface_null_run LoadAsync _ _ _ _ _ _ size interpolation Hlive Hd Hs).
  eexists _, _, Transparent, _. split; [reflexivity|].
  split; [simpl; apply list_lookup_insert_eq; eauto using lookup_lt_Some|].
  repeat (split; [reflexivity|]).
  split; [simpl; rewrite !elem_of_cons; auto|].
  split; [simpl; rewrite !elem_of_cons; auto|].
  unfold under_the_lock. simpl. rewrite Nat.eqb_refl. reflexivity.
Qed.

Lemma sample_surface_live : live sample_surface 0 0 sample_gd.
Proof. constructor; reflexivity. Qed.

Lemma DrawSurface_null_uri_clears_witness :
  exists s', DrawSurface no_bitmap 0 None Size_Empty Linear sample_surface = (Ok tt, s').
Proof.
  destruct (DrawSurface_null_uri_clears no_bitmap sample_surface 0 0 sample_gd 0
              (mkSurface 0 (mkSize (Fin 10) (Fin 10)) B8G8R8A8UIntNormalized
                 Premultiplied [] None)
              Size_Empty Linear sample_surface_live eq_refl eq_refl)
    as (s' & d' & c & evs & H & _).
  exists s'. exact H.
Defined.

(** X17. With a null URI the requested size is ignored:
    [CreateSurfaceFromUri(null, size)] returns a new surface which, whatever
    the size asked for, is 1x1 and transparent once its drawing task has
    settled; on that path the task never suspends. *)
Lemma CreateSurfaceFromUri_null_scenario LoadAsync s l g gd size interpolation :
  live s l g gd ->
  exists s' d,
    CreateSurfaceFromUri LoadAsync None size interpolation s =
      (Ok (length (surfaces (env s))), s') /\
    surfaces (env s') !! length (surfaces (env s)) = Some d /\
    surf_size d = mkSize (Fin 1) (Fin 1) /\
    uniform_color d = Some Transparent.
Proof.
  intros Hlive. unfold CreateSurfaceFromUri.
  erewrite bind_ok; [|apply (CreateSurface_run _ _ _ _ size Hlive)].
  unfold capture at 1. unfold bind at 1.
  erewrite (DrawSurface_null_run LoadAsync _ l g gd (length (surfaces (env s)))).
  - eexists _, _. split; [reflexivity|]. split.
    + simpl. apply list_lookup_insert_eq. rewrite length_app. simpl. lia.
    + split; reflexivity.
  - destruct Hlive as [Hl Hf Hg Hgd Hopen]. constructor; simpl; assumption.
  - simpl. apply list_lookup_middle. reflexivity.
  - reflexivity.
Qed.

Lemma DrawBitmap_run s l surface d canvasBitmap size interpolation :
  m_drawingLock (self s) = Some l ->
  locks (env s) !! l = Some false ->
  surfaces (env s) !! surface = Some d ->
  surf_session d = None ->
  DrawBitmap surface canvasBitmap size interpolation s =
  (Ok tt,
   update_env (fun w =>
     mkWorld (canvasDevices w) (graphicsDevices w)
       (<[surface := mkSurface (surf_device d)
                       (if IsEmpty size then bmp_size canvasBitmap else surf_size d)
                       (surf_format d) (surf_alpha d)
                       (bitmap_paints canvasBitmap
                          (full_rect (working_size size canvasBitmap)) interpolation)
                       None]> (surfaces w))
       (helpers w) (locks w) (next_token w)
       (trace w ++ EvLock l ::
          (if IsEmpty size then [EvResize surface (bmp_size canvasBitmap)] else []) ++
          EvBeginDraw surface ::
          map (EvPaint surface)
            (bitmap_paints canvasBitmap
               (full_rect (working_size size canvasBitmap)) interpolation) ++
          [EvEndDraw surface; EvUnlock l])) s).
Proof.
  intros Hl Hf Hd Hs.
  open_state s. destruct d. simpl in *. subst.
  unfold working_size, bitmap_paints, full_rect. unfold_backend. simpl.
  rewrite Hf. simpl. destruct (IsEmpty size); simpl; rewrite Hd; lookups;
    rewrite (list_insert_id locks0) by done; reflexivity.
Qed.

(** C6, as stated, fails: a 10x10 surface drawn with a requested size of
    5x5 stays 10x10, and the bitmap is scaled into the rectangle
    (0,0,5,5), which is not the surface's full rectangle. *)
Lemma DrawBitmap_requested_size_not_surface_rect :
  ~ draws_into_full_rect sample_surface 0 sample_bitmap (mkSize (Fin 5) (Fin 5)) Linear.
Proof.
  intros (s' & d' & Hrun & Hd' & Hc).
  vm_compute in Hrun. injection Hrun as <-.
  vm_compute in Hd'. injection Hd' as <-.
  vm_compute in Hc. discriminate Hc.
Qed.

(** C6, amended. For every surface with no drawing session open, every
    bitmap, requested size and interpolation mode, [DrawBitmap] works
    between taking and releasing the drawing lock.  If the requested size
    is empty it resizes the surface to the bitmap's size; otherwise it
    leaves the surface's size alone.  It then clears the surface to
    transparent and draws the bitmap, from the bitmap's full rectangle, at
    opacity 1 and with the requested interpolation, into the rectangle
    (0,0,W,H) of the working size: the bitmap's size when the requested
    size is empty, the requested size otherwise.  That rectangle is the
    surface's full rectangle whenever the requested size is empty or is
    the size the surface already has. *)
Theorem DrawBitmap_paints_working_rect s l surface d canvasBitmap size interpolation :
  m_drawingLock (self s) = Some l ->
  locks (env s) !! l = Some false ->
  surfaces (env s) !! surface = Some d ->
  surf_session d = None ->
  exists s' d' evs,
    DrawBitmap surface canvasBitmap size interpolation s = (Ok tt, s') /\
    surfaces (env s') !! surface = Some d' /\
    surf_size d' = (if IsEmpty size then bmp_size canvasBitmap else surf_size d) /\
    surf_content d' =
      [PClear Transparent;
       PDrawImage canvasBitmap
         (full_rect (if IsEmpty size then bmp_size canvasBitmap else size))
         (full_rect (bmp_size canvasBitmap)) (Fin 1)
         (GetCanvasImageInterpolation interpolation)] /\
    surf_session d' = None /\
    trace (env s') = trace (env s) ++ evs /\
    evs =
      EvLock l ::
      (if IsEmpty size then [EvResize surface (bmp_size canvasBitmap)] else []) ++
      EvBeginDraw surface :: map (EvPaint surface) (surf_content d') ++
      [EvEndDraw surface; EvUnlock l] /\
    under_the_lock l evs /\
    (IsEmpty size = true \/ surf_size d = size ->
     draws_into_full_rect s surface canvasBitmap size interpolation).
Proof.
  intros Hl Hf Hd Hs.
  pose proof (DrawBitmap_run s l surface d canvasBitmap size interpolation Hl Hf Hd Hs)
    as Hrun.
  assert (Hlook : forall x, <[surface := x]> (surfaces (env s)) !! surface = Some x).
  { intros x. apply list_lookup_insert_eq. eauto using lookup_lt_Some. }
  eexists _, _, _. split; [exact Hrun|].
  split; [simpl; apply Hlook|].
  repeat (split; [reflexivity|]).
  split.
  { unfold under_the_lock, bitmap_paints. destruct (IsEmpty size); simpl;
      rewrite Nat.eqb_refl; reflexivity. }
  intros Hsame. unfold draws_into_full_rect.
  eexists _, _. split; [exact Hrun|]. split; [simpl; apply Hlook|].
  simpl. unfold working_size. destruct (IsEmpty size); [reflexivity|].
  destruct Hsame as [?| ->]; [discriminate|reflexivity].
Qed.

Lemma DrawBitmap_paints_working_rect_witness :
  draws_into_full_rect sample_surface 0 sample_bitmap (mkSize (Fin 10) (Fin 10)) Linear.
Proof.
  destruct (DrawBitmap_paints_working_rect sample_surface 0 0
              (mkSurface 0 (mkSize (Fin 10) (Fin 10)) B8G8R8A8UIntNormalized
                 Premultiplied [] None)
              sample_bitmap (mkSize (Fin 10) (Fin 10)) Linear
              eq_refl eq_refl eq_refl eq_refl)
    as (s' & d' & evs & _ & _ & _ & _ & _ & _ & _ & _ & H).
  apply H. right. reflexivity.
Defined.

Lemma CreateSurfaceFromBytes_run s l g gd cd bytes w h size interpolation :
  live s l g gd ->
  canvasDevices (env s) !! gd_canvasDevice gd = Some cd ->
  cd_closed cd = false ->
  exists s',
    CreateSurfaceFromBytes bytes w h size interpolation s =
      (if (Z.of_nat (length bytes) =? w * h * 4)%Z
       then Ok (length (surfaces (env s)))
       else Throw InvalidArgumentException, s') /\
    surfaces (env s') !! length (surfaces (env s)) =
      Some (if (Z.of_nat (length bytes) =? w * h * 4)%Z
            then mkSurface g (if IsEmpty size then mkSize (Fin w) (Fin h) else size)
                   B8G8R8A8UIntNormalized Premultiplied
                   (bitmap_paints
                      (mkBitmap (FromBytes (gd_canvasDevice gd) bytes w h
                                   B8G8R8A8UIntNormalized)
                                (mkSize (Fin w) (Fin h)))
                      (full_rect (if IsEmpty size then mkSize (Fin w) (Fin h) else size))
                      interpolation)
                   None
            else mkSurface g (initial_size size) B8G8R8A8UIntNormalized Premultiplied
                   [] None).
Proof.
  intros Hlive Hcd Hopen. unfold CreateSurfaceFromBytes.
  erewrite bind_ok; [|apply (CreateSurface_run _ _ _ _ size Hlive)].
  destruct Hlive as [Hl Hf Hg Hgd Hgopen].
  open_state s. unfold initial_size, bitmap_paints, full_rect. unfold_backend. simpl.
  rewrite Hgd. simpl. rewrite Hgopen. simpl. rewrite Hcd. simpl. rewrite Hopen. simpl.
  destruct (Z.of_nat (length bytes) =? w * h * 4)%Z; simpl.
  - rewrite Hf. simpl.
    destruct (IsEmpty size); lookups.
    all: eexists; split; [reflexivity|]; simpl.
    all: apply list_lookup_middle; reflexivity.
  - eexists; split; [reflexivity|]; simpl.
    apply list_lookup_middle. reflexivity.
Qed.

(** C3. On a factory that can draw, whose graphics device has an open
    rendering device, [CreateSurfaceFromBytes] returns a surface for every
    byte buffer whose length is width*height*4 and throws
    InvalidArgumentException for every buffer of another length.  On
    success with an empty requested size the surface has the size of the
    bitmap, width x height. *)
Theorem CreateSurfaceFromBytes_length s l g gd cd bytes w h size interpolation :
  live s l g gd ->
  canvasDevices (env s) !! gd_canvasDevice gd = Some cd ->
  cd_closed cd = false ->
  (Z.of_nat (length bytes) = (w * h * 4)%Z /\
   exists s' d',
     CreateSurfaceFromBytes bytes w h size interpolation s =
       (Ok (length (surfaces (env s))), s') /\
     surfaces (env s') !! length (surfaces (env s)) = Some d' /\
     surf_size d' = (if IsEmpty size then mkSize (Fin w) (Fin h) else size)) \/
  (Z.of_nat (length bytes) <> (w * h * 4)%Z /\
   exists s',
     CreateSurfaceFromBytes bytes w h size interpolation s =
       (Throw InvalidArgumentException, s')).
Proof.
  intros Hlive Hcd Hopen.
  destruct (CreateSurfaceFromBytes_run s l g gd cd bytes w h size interpolation
              Hlive Hcd Hopen) as (s' & Hrun & Hd').
  destruct (Z.eqb_spec (Z.of_nat (length bytes)) (w * h * 4)) as [Heq|Hne].
  - left. split; [exact Heq|]. eexists _, _. split; [exact Hrun|].
    split; [exact Hd'|]. reflexivity.
  - right. split; [exact Hne|]. exists s'. exact Hrun.
Qed.

Lemma CreateSurfaceFromBytes_length_witness :
  exists s',
    CreateSurfaceFromBytes [x00; x00; x00; xff] 1 1 Size_Empty Linear sample_owner =
      (Ok 0, s').
Proof.
  destruct (CreateSurfaceFromBytes_length sample_owner 0 0 sample_gd
              (mkCanvasDevice false false) [x00; x00; x00; xff] 1 1 Size_Empty Linear
              sample_owner_live eq_refl eq_refl)
    as [(_ & s' & d' & H & _) | (Hne & _)].
  - exists s'. exact H.
  - exfalso. apply Hne. reflexivity.
Defined.

Ltac unfold_factory :=
  unfold CreateFromCompositor, CreateFromCompositor_options, CreateFromGraphicsDevice,
    CreateFromGraphicsDevice_lock, ref_new, SurfaceFactory_compositor,
    SurfaceFactory_graphicsDevice, CreateDevice, OnDeviceLost, Uninitialize, when,
    under_lock, GetLockSession, scoped, Lock_new, DeviceLostHelper_new, DeviceLost_add,
    WatchDevice, StopWatchingCurrentDevice, CanvasDevice_new, CanvasDevice_close,
    get_ForceSoftwareRenderer, CreateCompositionGraphicsDevice, get_Compositor,
    RenderingDeviceReplaced_add, RenderingDeviceReplaced_remove, GraphicsDevice_close,
    SetCanvasDevice, GetCanvasDevice, open_graphicsDevice, open_canvasDevice, arg, deref,
    this, fetch, bind, world, modify, ret, throw, update_self, update_env, release_session,
    update_env, with_canvasDevices, with_graphicsDevices, with_helpers, with_locks,
    bump_token, emit.

Lemma OnDeviceLost_run s c h g cd hd gd :
  owning s c h g cd hd gd ->
  let c' := length (canvasDevices (env s)) in
  OnDeviceLost s =
  (Ok tt,
   mkState (set_m_canvasDevice (Some c') (self s))
     (mkWorld
        (canvasDevices (env s) ++ [mkCanvasDevice (ForceSoftwareRenderer cd) false])
        (<[g := mkGraphicsDevice (gd_compositor gd) c' (gd_handlers gd) false]>
           (graphicsDevices (env s)))
        (surfaces (env s))
        (<[h := mkHelper (Some c') (dl_handlers hd)]> (helpers (env s)))
        (locks (env s)) (next_token (env s))
        (trace (env s) ++
           [EvNewCanvasDevice c' (ForceSoftwareRenderer cd); EvWatchDevice h c';
            EvSetCanvasDevice g c']))).
Proof.
  intros [Hcr Hc Hcd Hcopen Hh Hhd Hg Hgd Hgopen Hact].
  open_state s. destruct gd; simpl in *; subst. unfold_factory. simpl.
  rewrite Hcd. simpl. rewrite Hcopen. simpl. rewrite Hhd. simpl. rewrite Hgd. lookups.
  reflexivity.
Qed.

(** The constructor of the owning mode leaves a factory in working order,
    whatever else the world holds. *)
Lemma CreateFromCompositor_options_run comp options w :
  let c := length (canvasDevices w) in
  let h := length (helpers w) in
  let g := length (graphicsDevices w) in
  let l := length (locks w) in
  CreateFromCompositor_options (Some comp) options w =
  (Ok tt,
   mkState
     (mkFactory (Some comp) (Some l) true (Some h) (Some c) (Some g)
        (next_token w) (S (next_token w)))
     (mkWorld
        (canvasDevices w ++ [mkCanvasDevice (UseSoftwareRenderer options) false])
        (graphicsDevices w ++ [mkGraphicsDevice comp c [S (next_token w)] false])
        (surfaces w)
        (helpers w ++ [mkHelper (Some c) [next_token w]])
        (locks w ++ [false]) (S (S (next_token w)))
        (trace w ++
           [EvNewCanvasDevice c (UseSoftwareRenderer options); EvWatchDevice h c;
            EvNewGraphicsDevice g comp c; EvSubscribe g (S (next_token w))]))).
Proof.
  destruct w. unfold_factory. lookups. reflexivity.
Qed.


Lemma sample_owner_owning :
  owning sample_owner 0 0 0 (mkCanvasDevice false false) (mkHelper (Some 0) [0]) sample_gd.
Proof. constructor; reflexivity. Qed.

(** C4. For every factory of the owning mode in working order, handling a
    device-lost notification succeeds, and afterwards the rendering device
    of the composition graphics device is a new device, different from the
    one before; its software-renderer flag is the flag of the device
    before; the factory holds the new device; the helper watches it; and
    the factory is again in working order. *)
Theorem OnDeviceLost_recreates_device s c h g cd hd gd :
  owning s c h g cd hd gd ->
  exists s' c' cd' hd' gd',
    OnDeviceLost s = (Ok tt, s') /\
    GetCanvasDevice (Some g) s = (Ok c, s) /\
    GetCanvasDevice (Some g) s' = (Ok c', s') /\
    c' <> c /\
    canvasDevices (env s) !! c' = None /\
    m_canvasDevice (self s') = Some c' /\
    get_ForceSoftwareRenderer c' s' = (Ok (ForceSoftwareRenderer cd), s') /\
    dl_watched hd' = Some c' /\
    owning s' c' h g cd' hd' gd'.
Proof.
  intros Hown. pose proof (OnDeviceLost_run s c h g cd hd gd Hown) as Hrun.
  destruct Hown as [Hcr Hc Hcd Hcopen Hh Hhd Hg Hgd Hgopen Hact].
  pose proof (lookup_lt_Some _ _ _ Hcd) as Hlt.
  pose proof (lookup_lt_Some _ _ _ Hhd) as Hhlt.
  pose proof (lookup_lt_Some _ _ _ Hgd) as Hglt.
  simpl in Hrun.
  eexists _, (length (canvasDevices (env s))),
    (mkCanvasDevice (ForceSoftwareRenderer cd) false),
    (mkHelper (Some (length (canvasDevices (env s)))) (dl_handlers hd)),
    (mkGraphicsDevice (gd_compositor gd) (length (canvasDevices (env s)))
       (gd_handlers gd) false).
  split; [exact Hrun|].
  split. { unfold_factory. simpl. rewrite Hgd. simpl. rewrite Hgopen, Hact. reflexivity. }
  split. { unfold_factory. simpl. rewrite list_lookup_insert_eq by done. reflexivity. }
  split; [lia|].
  split; [apply lookup_ge_None_2; lia|].
  split; [reflexivity|].
  split. { unfold_factory. simpl. rewrite list_lookup_middle by reflexivity. reflexivity. }
  split; [reflexivity|].
  constructor; simpl; try done.
  - apply list_lookup_middle. reflexivity.
  - apply list_lookup_insert_eq. done.
  - apply list_lookup_insert_eq. done.
Qed.

Lemma OnDeviceLost_recreates_device_witness :
  exists s', OnDeviceLost sample_owner = (Ok tt, s') /\ m_canvasDevice (self s') = Some 1.
Proof.
  destruct (OnDeviceLost_recreates_device sample_owner 0 0 0 _ _ _ sample_owner_owning)
    as (s' & c' & cd' & hd' & gd' & H & _ & _ & _ & _ & Hc & _).
  exists s'. split; [exact H|]. vm_compute in H. injection H as <-. reflexivity.
Defined.

(** C2. The recovery step does not run under the drawing lock.  For every
    factory of the owning mode in working order whose lock [l] is free,
    [OnDeviceLost] creates the new rendering device, has it watched and
    re-points the composition graphics device, and these three are all the
    events of the call: the lock is never taken. *)
Theorem OnDeviceLost_takes_no_lock s c h g cd hd gd l :
  owning s c h g cd hd gd ->
  m_drawingLock (self s) = Some l ->
  locks (env s) !! l = Some false ->
  exists s' c' evs,
    OnDeviceLost s = (Ok tt, s') /\
    trace (env s') = trace (env s) ++ evs /\
    evs = [EvNewCanvasDevice c' (ForceSoftwareRenderer cd); EvWatchDevice h c';
           EvSetCanvasDevice g c'] /\
    (EvLock l ∉ evs) /\
    guarded l false evs = false /\
    locks (env s') = locks (env s).
Proof.
  intros Hown Hl Hf. pose proof (OnDeviceLost_run s c h g cd hd gd Hown) as Hrun.
  simpl in Hrun.
  eexists _, _, _. split; [exact Hrun|].
  repeat (split; [reflexivity|]).
  split; [|split; reflexivity].
  rewrite !elem_of_cons, elem_of_nil. intros [?|[?|[?|[]]]]; discriminate.
Qed.

Lemma OnDeviceLost_takes_no_lock_witness :
  exists s', OnDeviceLost sample_owner = (Ok tt, s') /\
             trace (env s') = trace (env sample_owner) ++
               [EvNewCanvasDevice 1 false; EvWatchDevice 0 1; EvSetCanvasDevice 0 1].
Proof.
  destruct (OnDeviceLost_takes_no_lock sample_owner 0 0 0 _ _ _ 0 sample_owner_owning
              eq_refl eq_refl)
    as (s' & c' & evs & H & Ht & _).
  exists s'. split; [exact H|]. vm_compute in H. injection H as <-. reflexivity.
Defined.

Lemma Uninitialize_without_lock s :
  m_drawingLock (self s) = None ->
  Uninitialize s = (Throw NullReferenceException, s).
Proof.
  intros Hl. unfold Uninitialize, under_lock, bind, this, deref, throw.
  rewrite Hl. reflexivity.
Qed.

Lemma Uninitialize_clears_lock s s' :
  Uninitialize s = (Ok tt, s') -> m_drawingLock (self s') = None.
Proof.
  unfold Uninitialize. unfold bind at 1.
  destruct (under_lock _ s) as [[[]|e] s1]; [|discriminate].
  unfold update_self. intros [= <-]. reflexivity.
Qed.

(** C1. The second call is not a no-op.  Whenever [Uninitialize] has run
    to its end, the lock handle is null, and running [Uninitialize] again
    throws NullReferenceException at [m_drawingLock->GetLockSession()];
    the state is left as it was, so nothing is released twice. *)
Theorem Uninitialize_twice_throws s s' :
  Uninitialize s = (Ok tt, s') ->
  Uninitialize s' = (Throw NullReferenceException, s').
Proof.
  intros H. apply Uninitialize_without_lock.
  exact (Uninitialize_clears_lock s s' H).
Qed.

Lemma Uninitialize_twice_throws_witness :
  Uninitialize sample_torn_down = (Throw NullReferenceException, sample_torn_down).
Proof.
  apply (Uninitialize_twice_throws sample_owner). vm_compute. reflexivity.
Defined.

(** ** What a call leaves alone *)

Lemma unchanged_refl s : unchanged s s.
Proof. constructor; reflexivity. Qed.

Lemma unchanged_trans s1 s2 s3 : unchanged s1 s2 -> unchanged s2 s3 -> unchanged s1 s3.
Proof. intros [] []. constructor; congruence. Qed.

Lemma unchanged_lock_free s s' : unchanged s s' -> lock_free s -> lock_free s'.
Proof. intros [Hs _ _ _ Hl _] Hfree l. rewrite Hs, Hl. apply Hfree. Qed.

Lemma surface_work_bind {T U} (m : M T) (k : T -> M U) :
  surface_work m -> (forall a, surface_work (k a)) -> surface_work (bind m k).
Proof.
  intros Hm Hk s. unfold bind. specialize (Hm s).
  destruct (m s) as [[a|e] s1]; simpl in *; [|exact Hm].
  eapply unchanged_trans; [exact Hm|apply Hk].
Qed.

Lemma surface_work_scoped {T} (m : M T) (cleanup : State -> State) :
  surface_work m -> (forall s, unchanged s (cleanup s)) -> surface_work (scoped m cleanup).
Proof.
  intros Hm Hc s. unfold scoped. specialize (Hm s).
  destruct (m s) as [r s1]; simpl in *.
  eapply unchanged_trans; [exact Hm|apply Hc].
Qed.

Lemma restoring_surface_work {T} (m : M T) : surface_work m -> restoring m.
Proof. intros Hm s _. apply Hm. Qed.

Lemma restoring_bind {T U} (m : M T) (k : T -> M U) :
  restoring m -> (forall a, restoring (k a)) -> restoring (bind m k).
Proof.
  intros Hm Hk s Hfree. unfold bind. specialize (Hm s Hfree).
  destruct (m s) as [[a|e] s1]; simpl in *; [|exact Hm].
  eapply unchanged_trans; [exact Hm|]. apply Hk.
  eapply unchanged_lock_free; eassumption.
Qed.

Lemma restoring_capture {T} (m : M T) : restoring m -> restoring (capture m).
Proof.
  intros Hm s Hfree. unfold capture. specialize (Hm s Hfree).
  destruct (m s) as [r s1]. exact Hm.
Qed.

Lemma restoring_under_lock {T} (body : M T) :
  surface_work body -> restoring (under_lock body).
Proof.
  intros Hbody s Hfree.
  destruct (m_drawingLock (self s)) as [l|] eqn:Hl.
  - specialize (Hfree l Hl). rewrite (under_lock_run body s l Hl Hfree).
    unfold scoped.
    match goal with |- context [body ?s1] =>
      specialize (Hbody s1); destruct (body s1) as [r s2] end.
    destruct Hbody as [Hs Hc Hg Hh Hlk Ht]. simpl in *.
    constructor; simpl; try assumption.
    rewrite Hlk, list_insert_insert_eq. apply list_insert_id. exact Hfree.
  - unfold under_lock, bind, this, deref, throw. rewrite Hl. apply unchanged_refl.
Qed.

(** The backend calls of the drawing path touch surfaces only. *)
Ltac surface_prim :=
  intros s; unfold_backend; simpl;
  repeat (case_match; simplify_eq/=); constructor; reflexivity.

Lemma surface_work_ret {T} (a : T) : surface_work (ret a).
Proof. intros s. apply unchanged_refl. Qed.

Lemma surface_work_throw {T} e : surface_work (@throw T e).
Proof. intros s. apply unchanged_refl. Qed.

Lemma surface_work_lift {T} (r : res T) : surface_work (lift r).
Proof. intros s. apply unchanged_refl. Qed.

Lemma surface_work_this {T} (field : SurfaceFactory -> T) : surface_work (this field).
Proof. intros s. apply unchanged_refl. Qed.

Lemma surface_work_deref h : surface_work (deref h).
Proof. destruct h; intros s; apply unchanged_refl. Qed.

Lemma surface_work_Resize surface size : surface_work (Resize surface size).
Proof. surface_prim. Qed.

Lemma surface_work_CreateDrawingSession surface :
  surface_work (CreateDrawingSession surface).
Proof. surface_prim. Qed.

Lemma surface_work_session_paint surface p : surface_work (session_paint surface p).
Proof. surface_prim. Qed.

Lemma unchanged_end_session surface s : unchanged s (end_session surface s).
Proof. unfold_backend. repeat case_match; constructor; reflexivity. Qed.

Lemma surface_work_CreateDrawingSurface g size format alpha :
  surface_work (CreateDrawingSurface g size format alpha).
Proof.
  intros s. unfold CreateDrawingSurface. unfold_backend. simpl.
  repeat (case_match; simplify_eq/=); constructor; reflexivity.
Qed.

Lemma surface_work_GetCanvasDevice g : surface_work (GetCanvasDevice g).
Proof. surface_prim. Qed.

Lemma surface_work_CreateFromBytes c bytes w h format :
  surface_work (CreateFromBytes c bytes w h format).
Proof. surface_prim. Qed.

Lemma surface_work_drawing_session {T} surface (body : M T) :
  surface_work body -> surface_work (drawing_session surface body).
Proof.
  intros Hbody. unfold drawing_session. apply surface_work_bind.
  - apply surface_work_CreateDrawingSession.
  - intros _. apply surface_work_scoped; [exact Hbody|].
    apply unchanged_end_session.
Qed.

Create HintDb frame.
#[local] Hint Resolve surface_work_ret surface_work_throw surface_work_lift
  surface_work_this surface_work_deref surface_work_Resize
  surface_work_CreateDrawingSession surface_work_session_paint
  surface_work_CreateDrawingSurface surface_work_GetCanvasDevice
  surface_work_CreateFromBytes : frame.

Ltac frame :=
  repeat first
    [ solve [auto with frame]
    | solve [apply restoring_surface_work; auto with frame]
    | apply restoring_under_lock
    | apply restoring_capture
    | apply surface_work_drawing_session
    | apply surface_work_bind; [|intros ?]
    | apply restoring_bind; [|intros ?]
    | case_match
    | apply restoring_surface_work ].

Lemma restoring_CreateSurface size : restoring (CreateSurface size).
Proof. unfold CreateSurface. frame. Qed.

Lemma restoring_ResizeSurface surface size : restoring (ResizeSurface surface size).
Proof. unfold ResizeSurface. frame. Qed.

Lemma restoring_DrawBitmap surface b size i : restoring (DrawBitmap surface b size i).
Proof. unfold DrawBitmap, Clear, DrawImage. frame. Qed.

Lemma restoring_DrawSurface LoadAsync surface uri size i :
  restoring (DrawSurface LoadAsync surface uri size i).
Proof.
  unfold DrawSurface, DrawSurface_begin, DrawSurface_resume, Clear.
  pose proof restoring_DrawBitmap. frame.
Qed.

Lemma restoring_CreateSurfaceFromBytes bytes w h size i :
  restoring (CreateSurfaceFromBytes bytes w h size i).
Proof.
  unfold CreateSurfaceFromBytes.
  pose proof restoring_CreateSurface. pose proof restoring_DrawBitmap. frame.
Qed.

Lemma restoring_CreateSurfaceFromUri LoadAsync uri size i :
  restoring (CreateSurfaceFromUri LoadAsync uri size i).
Proof.
  unfold CreateSurfaceFromUri.
  pose proof restoring_CreateSurface. pose proof (restoring_DrawSurface LoadAsync). frame.
Qed.

Lemma restoring_CreateSurfaceFromUriAsync LoadAsync uri size i :
  restoring (CreateSurfaceFromUriAsync LoadAsync uri size i).
Proof.
  unfold CreateSurfaceFromUriAsync.
  pose proof restoring_CreateSurface. pose proof (restoring_DrawSurface LoadAsync). frame.
Qed.

Lemma restoring_CreateUriSurface LoadAsync uri size i :
  restoring (CreateUriSurface LoadAsync uri size i).
Proof.
  unfold CreateUriSurface, UriSurface_Create, RedrawSurfaceAsync.
  pose proof restoring_CreateSurface. pose proof (restoring_DrawSurface LoadAsync). frame.
Qed.

Lemma restoring_CreateUriSurfaceAsync LoadAsync uri size i :
  restoring (CreateUriSurfaceAsync LoadAsync uri size i).
Proof.
  unfold CreateUriSurfaceAsync, UriSurface_Create, RedrawSurfaceAsync.
  pose proof restoring_CreateSurface. pose proof (restoring_DrawSurface LoadAsync). frame.
Qed.

(** The two methods that create a rendering device do nothing on a factory
    of the borrowing mode: [CreateDevice] is stopped by its guard, and
    [OnDeviceLost], which nothing would raise, stops at the null device. *)
Lemma CreateDevice_borrowing options s :
  m_isGraphicsDeviceCreator (self s) = false -> CreateDevice options s = (Ok tt, s).
Proof.
  intros Hcr. unfold CreateDevice, when, bind, this, ret. rewrite Hcr.
  destruct (m_compositor (self s)); reflexivity.
Qed.

Lemma OnDeviceLost_borrowing s :
  m_canvasDevice (self s) = None -> OnDeviceLost s = (Throw NullReferenceException, s).
Proof.
  intros Hc. unfold OnDeviceLost, bind, this, deref, throw. rewrite Hc. reflexivity.
Qed.

Lemma borrowing_lock_free s l g gd : borrowing s l g gd -> lock_free s.
Proof.
  intros [_ _ _ [Hl Hf _ _ _]] l'. rewrite Hl. intros [= <-]. exact Hf.
Qed.

Lemma borrowing_unchanged s s' l g gd :
  unchanged s s' -> borrowing s l g gd -> borrowing s' l g gd.
Proof.
  intros [Hs Hc Hg Hh Hl Ht] [Hcr Hnd Hnh [Hlk Hf Hgr Hgd Hopen]].
  constructor; [| | |constructor]; rewrite ?Hs, ?Hg, ?Hl; assumption.
Qed.

Lemma call_unchanged LoadAsync c s l g gd :
  borrowing s l g gd -> unchanged s (call LoadAsync c s).
Proof.
  intros Hb. pose proof (borrowing_lock_free _ _ _ _ Hb) as Hfree.
  destruct c; simpl.
  - apply restoring_CreateSurface, Hfree.
  - apply restoring_ResizeSurface, Hfree.
  - apply restoring_DrawBitmap, Hfree.
  - apply restoring_DrawSurface, Hfree.
  - apply restoring_CreateSurfaceFromBytes, Hfree.
  - apply restoring_CreateSurfaceFromUri, Hfree.
  - apply restoring_CreateSurfaceFromUriAsync, Hfree.
  - apply restoring_CreateUriSurface, Hfree.
  - apply restoring_CreateUriSurfaceAsync, Hfree.
  - rewrite CreateDevice_borrowing; [apply unchanged_refl|apply Hb].
  - rewrite OnDeviceLost_borrowing; [apply unchanged_refl|apply Hb].
Qed.

Lemma calls_unchanged LoadAsync cs s l g gd :
  borrowing s l g gd -> unchanged s (calls LoadAsync cs s).
Proof.
  revert s. induction cs as [|c cs IH]; intros s Hb; simpl.
  - apply unchanged_refl.
  - pose proof (call_unchanged LoadAsync c s l g gd Hb) as Hc.
    eapply unchanged_trans; [exact Hc|]. apply IH.
    eapply borrowing_unchanged; eassumption.
Qed.

Lemma CreateFromGraphicsDevice_lock_run w g gd lock :
  graphicsDevices w !! g = Some gd ->
  gd_closed gd = false ->
  CreateFromGraphicsDevice_lock (Some g) lock w =
  (Ok tt,
   mkState
     (mkFactory (Some (gd_compositor gd)) (Some (borrowed_lock lock w)) false None None
        (Some g) 0 (next_token w))
     (mkWorld (canvasDevices w)
        (<[g := mkGraphicsDevice (gd_compositor gd) (gd_canvasDevice gd)
                  (gd_handlers gd ++ [next_token w]) false]> (graphicsDevices w))
        (surfaces w) (helpers w)
        (match lock with Some _ => locks w | None => locks w ++ [false] end)
        (S (next_token w)) (trace w ++ [EvSubscribe g (next_token w)]))).
Proof.
  intros Hgd Hopen. destruct w, gd; simpl in *; subst. unfold_factory. simpl.
  rewrite Hgd. simpl. destruct lock; simpl; rewrite Hgd; reflexivity.
Qed.

Lemma Uninitialize_borrowing_run s l g gd :
  borrowing s l g gd ->
  Uninitialize s =
  (Ok tt,
   mkState
     (mkFactory None None false None None None (OnDeviceLostHandler (self s))
        (OnRenderingDeviceReplacedHandler (self s)))
     (mkWorld (canvasDevices (env s))
        (<[g := mkGraphicsDevice (gd_compositor gd) (gd_canvasDevice gd)
                  (filter (fun t => t <> OnRenderingDeviceReplacedHandler (self s))
                     (gd_handlers gd))
                  false]> (graphicsDevices (env s)))
        (surfaces (env s)) (helpers (env s)) (locks (env s)) (next_token (env s))
        (trace (env s) ++
           [EvLock l; EvUnsubscribe g (OnRenderingDeviceReplacedHandler (self s));
            EvUnlock l]))).
Proof.
  intros [Hcr Hnd Hnh [Hl Hf Hg Hgd Hopen]].
  open_state s. destruct gd; simpl in *; subst. unfold_factory. simpl.
  rewrite Hf. simpl. rewrite Hgd. lookups.
  rewrite (list_insert_id locks0) by done. reflexivity.
Qed.

Lemma sample_world_device : graphicsDevices (env sample_owner) !! 0 = Some sample_gd.
Proof. reflexivity. Qed.

(** C8. A factory built from an open composition graphics device that
    somebody else owns, with a free lock of the caller's or none,
    registers for RenderingDeviceReplaced in its constructor.  Whatever
    calls are then made on it, it holds no rendering device and no
    device-lost helper, and the world has no rendering device or helper
    that it did not have before.  Tearing it down, under the lock, only
    removes the registration: the composition graphics device stays
    open. *)
Theorem borrowing_factory_owns_no_device LoadAsync w g gd lock cs :
  graphicsDevices w !! g = Some gd ->
  gd_closed gd = false ->
  (forall l, lock = Some l -> locks w !! l = Some false) ->
  exists s0 gd1 s' gd2,
    let l := borrowed_lock lock w in
    let tok := next_token w in
    let s := calls LoadAsync cs s0 in
    CreateFromGraphicsDevice_lock (Some g) lock w = (Ok tt, s0) /\
    m_isGraphicsDeviceCreator (self s0) = false /\
    OnRenderingDeviceReplacedHandler (self s0) = tok /\
    graphicsDevices (env s0) !! g = Some gd1 /\
    gd_handlers gd1 = gd_handlers gd ++ [tok] /\
    trace (env s0) = trace w ++ [EvSubscribe g tok] /\
    m_canvasDevice (self s) = None /\
    m_deviceLostHelper (self s) = None /\
    canvasDevices (env s) = canvasDevices w /\
    helpers (env s) = helpers w /\
    Uninitialize s = (Ok tt, s') /\
    trace (env s') = trace (env s) ++ [EvLock l; EvUnsubscribe g tok; EvUnlock l] /\
    graphicsDevices (env s') !! g = Some gd2 /\
    gd_closed gd2 = false /\
    (tok ∉ gd_handlers gd2) /\
    canvasDevices (env s') = canvasDevices w.
Proof.
  intros Hgd Hopen Hlock.
  pose proof (CreateFromGraphicsDevice_lock_run w g gd lock Hgd Hopen) as Hnew.
  pose proof (lookup_lt_Some _ _ _ Hgd) as Hlt.
  set (gd1 := mkGraphicsDevice (gd_compositor gd) (gd_canvasDevice gd)
                (gd_handlers gd ++ [next_token w]) false) in *.
  match type of Hnew with _ = (_, ?st) => set (s0 := st) in * end.
  assert (Hb : borrowing s0 (borrowed_lock lock w) g gd1).
  { constructor; try reflexivity. constructor; try reflexivity; simpl.
    - destruct lock as [l|]; simpl.
      + apply Hlock. reflexivity.
      + apply list_lookup_middle. reflexivity.
    - apply list_lookup_insert_eq. exact Hlt. }
  pose proof (calls_unchanged LoadAsync cs s0 _ _ _ Hb) as Hsame.
  pose proof (borrowing_unchanged _ _ _ _ _ Hsame Hb) as Hb'.
  pose proof (Uninitialize_borrowing_run _ _ _ _ Hb') as Hun.
  destruct Hsame as [Hs Hc Hg Hh Hl Ht].
  eexists s0, gd1, _, _. cbv zeta.
  split; [exact Hnew|].
  do 5 (split; [first [reflexivity | apply list_lookup_insert_eq; exact Hlt]|]).
  split; [rewrite Hs; reflexivity|].
  split; [rewrite Hs; reflexivity|].
  split; [rewrite Hc; reflexivity|].
  split; [rewrite Hh; reflexivity|].
  split; [exact Hun|].
  split; [simpl; rewrite Hs; reflexivity|].
  split.
  { simpl. apply list_lookup_insert_eq. rewrite Hg. simpl.
    rewrite length_insert. exact Hlt. }
  split; [reflexivity|].
  split.
  { simpl. rewrite Hs. simpl. rewrite list_elem_of_filter. intros [Hne _].
    apply Hne. reflexivity. }
  simpl. rewrite Hc. reflexivity.
Qed.

Lemma borrowing_factory_owns_no_device_witness :
  exists s0 s',
    CreateFromGraphicsDevice_lock (Some 0) (Some 0) (env sample_owner) = (Ok tt, s0) /\
    Uninitialize (calls no_bitmap [CallCreateSurface Size_Empty; CallOnDeviceLost] s0) =
      (Ok tt, s').
Proof.
  destruct (borrowing_factory_owns_no_device no_bitmap (env sample_owner) 0 sample_gd
              (Some 0) [CallCreateSurface Size_Empty; CallOnDeviceLost]
              sample_world_device eq_refl)
    as (s0 & gd1 & s' & gd2 & H).
  - intros l [= <-]. reflexivity.
  - cbv zeta in H. exists s0, s'. split; [apply H|]. apply H.
Defined.

(** C9. Every overload of a creation operation that leaves out the size,
    the interpolation or both is the full form called with the defaults:
    the empty size for a size left out, linear interpolation for an
    interpolation left out.  [CreateUriSurface()] is moreover the full form
    at the null URI. *)
Theorem overloads_are_defaults LoadAsync uri size bytes w h :
  (CreateSurfaceFromUri_uri LoadAsync uri =
     with_defaults (CreateSurfaceFromUri LoadAsync uri) (mkCreationOptions None None) /\
   CreateSurfaceFromUri_size LoadAsync uri size =
     with_defaults (CreateSurfaceFromUri LoadAsync uri)
       (mkCreationOptions (Some size) None)) /\
  (CreateSurfaceFromUriAsync_uri LoadAsync uri =
     with_defaults (CreateSurfaceFromUriAsync LoadAsync uri)
       (mkCreationOptions None None) /\
   CreateSurfaceFromUriAsync_size LoadAsync uri size =
     with_defaults (CreateSurfaceFromUriAsync LoadAsync uri)
       (mkCreationOptions (Some size) None)) /\
  (CreateUriSurface_none LoadAsync =
     with_defaults (CreateUriSurface LoadAsync None) (mkCreationOptions None None) /\
   CreateUriSurface_uri LoadAsync uri =
     with_defaults (CreateUriSurface LoadAsync uri) (mkCreationOptions None None) /\
   CreateUriSurface_size LoadAsync uri size =
     with_defaults (CreateUriSurface LoadAsync uri) (mkCreationOptions (Some size) None)) /\
  (CreateUriSurfaceAsync_uri LoadAsync uri =
     with_defaults (CreateUriSurfaceAsync LoadAsync uri) (mkCreationOptions None None) /\
   CreateUriSurfaceAsync_size LoadAsync uri size =
     with_defaults (CreateUriSurfaceAsync LoadAsync uri)
       (mkCreationOptions (Some size) None)) /\
  (CreateSurfaceFromBytes_dims bytes w h =
     with_defaults (CreateSurfaceFromBytes bytes w h) (mkCreationOptions None None) /\
   CreateSurfaceFromBytes_size bytes w h size =
     with_defaults (CreateSurfaceFromBytes bytes w h)
       (mkCreationOptions (Some size) None)) /\
  (forall T (full : Size -> InterpolationMode -> M T),
     with_defaults full (mkCreationOptions None None) = full Size_Empty Linear /\
     with_defaults full (mkCreationOptions (Some size) None) = full size Linear).
Proof.
  repeat split; reflexivity.
Qed.

(** C10. [CreateFromCompositor(compositor)] is
    [CreateFromCompositor(compositor, options)] at the options whose
    UseSoftwareRenderer is false, and the rendering device it creates for a
    compositor is a hardware device: its ForceSoftwareRenderer is false. *)
Theorem CreateFromCompositor_defaults_to_hardware compositor comp w :
  CreateFromCompositor compositor w =
    CreateFromCompositor_options compositor (mkOptions false) w /\
  exists s c,
    CreateFromCompositor (Some comp) w = (Ok tt, s) /\
    m_canvasDevice (self s) = Some c /\
    get_ForceSoftwareRenderer c s = (Ok false, s).
Proof.
  split; [reflexivity|].
  change (CreateFromCompositor (Some comp) w)
    with (CreateFromCompositor_options (Some comp) (mkOptions false) w).
  rewrite CreateFromCompositor_options_run.
  eexists _, _. split; [reflexivity|]. split; [reflexivity|].
  unfold_factory. simpl. rewrite list_lookup_middle by reflexivity. reflexivity.
Qed.

(** ** Further properties: teardown *)

Lemma Uninitialize_clears_fields s s' :
  Uninitialize s = (Ok tt, s') ->
  m_compositor (self s') = None /\ m_drawingLock (self s') = None /\
  m_canvasDevice (self s') = None /\ m_graphicsDevice (self s') = None.
Proof.
  intros H. open_state s. revert H. unfold_factory. simpl.
  repeat (case_match; simplify_eq/=); intros; simplify_eq/=; repeat split; reflexivity.
Qed.

Lemma under_lock_without_lock {T} (body : M T) s :
  m_drawingLock (self s) = None -> under_lock body s = (Throw NullReferenceException, s).
Proof.
  intros Hl. unfold under_lock, bind, this, deref, throw. rewrite Hl. reflexivity.
Qed.

(** X1. Tearing down a factory of the owning mode in working order, with
    its lock free, succeeds.  Between taking and releasing the lock it
    stops the helper's watch, closes the rendering device, removes the
    RenderingDeviceReplaced registration and closes the composition
    graphics device, in that order; all four handles of the factory are
    null afterwards.  Surfaces are not touched, and the helper keeps its
    DeviceLost registration: the source never removes it. *)
Theorem Uninitialize_owning_releases s c h g cd hd gd l :
  owning s c h g cd hd gd ->
  m_drawingLock (self s) = Some l ->
  locks (env s) !! l = Some false ->
  exists s' gd' hd',
    Uninitialize s = (Ok tt, s') /\
    self s' = mkFactory None None true None None None (OnDeviceLostHandler (self s))
                (OnRenderingDeviceReplacedHandler (self s)) /\
    trace (env s') = trace (env s) ++
      [EvLock l; EvStopWatching h; EvCloseCanvasDevice c;
       EvUnsubscribe g (OnRenderingDeviceReplacedHandler (self s));
       EvCloseGraphicsDevice g; EvUnlock l] /\
    canvasDevices (env s') !! c = Some (mkCanvasDevice (ForceSoftwareRenderer cd) true) /\
    graphicsDevices (env s') !! g = Some gd' /\
    gd_closed gd' = true /\
    (OnRenderingDeviceReplacedHandler (self s) ∉ gd_handlers gd') /\
    helpers (env s') !! h = Some hd' /\
    dl_watched hd' = None /\
    dl_handlers hd' = dl_handlers hd /\
    surfaces (env s') = surfaces (env s) /\
    locks (env s') = locks (env s).
Proof.
  intros [Hcr Hc Hcd Hcopen Hh Hhd Hg Hgd Hgopen Hact] Hl Hf.
  pose proof (lookup_lt_Some _ _ _ Hcd) as Hclt.
  pose proof (lookup_lt_Some _ _ _ Hhd) as Hhlt.
  pose proof (lookup_lt_Some _ _ _ Hgd) as Hglt.
  open_state s. destruct gd, hd, cd; simpl in *; subst.
  unfold_factory. simpl.
  rewrite Hf. simpl. rewrite Hhd. simpl. rewrite Hcd. simpl. rewrite Hgd. lookups.
  rewrite (list_insert_id locks0) by done.
  eexists _, _, _. split; [reflexivity|]. simpl.
  split; [reflexivity|]. split; [reflexivity|].
  split; [apply list_lookup_insert_eq; exact Hclt|].
  split; [apply list_lookup_insert_eq; exact Hglt|].
  split; [reflexivity|].
  split; [simpl; rewrite list_elem_of_filter; intros [Hne _]; apply Hne; reflexivity|].
  split; [apply list_lookup_insert_eq; exact Hhlt|].
  repeat split; reflexivity.
Qed.

Lemma Uninitialize_owning_releases_witness :
  exists s', Uninitialize sample_owner = (Ok tt, s') /\ m_graphicsDevice (self s') = None.
Proof.
  destruct (Uninitialize_owning_releases sample_owner 0 0 0 _ _ _ 0 sample_owner_owning
              eq_refl eq_refl)
    as (s' & gd' & hd' & H & Hs & _).
  exists s'. split; [exact H|]. rewrite Hs. reflexivity.
Defined.

(** X2. Once [Uninitialize] has run to its end, every method that creates,
    resizes or draws a surface throws NullReferenceException at the null
    lock handle, [OnDeviceLost] throws it at the null device handle, and
    none of them changes anything. *)
Theorem calls_after_Uninitialize_throw LoadAsync s0 s :
  Uninitialize s0 = (Ok tt, s) ->
  (forall size, CreateSurface size s = (Throw NullReferenceException, s)) /\
  (forall surface size, ResizeSurface surface size s = (Throw NullReferenceException, s)) /\
  (forall surface b size i,
     DrawBitmap surface b size i s = (Throw NullReferenceException, s)) /\
  (forall bytes w h size i,
     CreateSurfaceFromBytes bytes w h size i s = (Throw NullReferenceException, s)) /\
  (forall uri size i,
     CreateSurfaceFromUri LoadAsync uri size i s = (Throw NullReferenceException, s)) /\
  (forall uri size i,
     CreateSurfaceFromUriAsync LoadAsync uri size i s =
       (Throw NullReferenceException, s)) /\
  OnDeviceLost s = (Throw NullReferenceException, s).
Proof.
  intros H. destruct (Uninitialize_clears_fields s0 s H) as (_ & Hl & Hc & _).
  assert (Hcs : forall size, CreateSurface size s = (Throw NullReferenceException, s)).
  { intros size. unfold CreateSurface. erewrite bind_ok; [|reflexivity].
    apply under_lock_without_lock, Hl. }
  split; [exact Hcs|].
  split; [intros; apply under_lock_without_lock, Hl|].
  split; [intros; apply under_lock_without_lock, Hl|].
  split; [intros; unfold CreateSurfaceFromBytes; erewrite bind_throw; [reflexivity|apply Hcs]|].
  split; [intros; unfold CreateSurfaceFromUri; erewrite bind_throw; [reflexivity|apply Hcs]|].
  split; [intros; unfold CreateSurfaceFromUriAsync; erewrite bind_throw;
          [reflexivity|apply Hcs]|].
  apply OnDeviceLost_borrowing, Hc.
Qed.

Lemma calls_after_Uninitialize_throw_witness :
  CreateSurface Size_Empty sample_torn_down =
    (Throw NullReferenceException, sample_torn_down).
Proof.
  assert (H : Uninitialize sample_owner = (Ok tt, sample_torn_down))
    by (vm_compute; reflexivity).
  exact (proj1 (calls_after_Uninitialize_throw no_bitmap sample_owner sample_torn_down H)
           Size_Empty).
Defined.

(** ** Further properties: construction *)


(** X4. Constructing a factory from a null compositor succeeds as well, but
    [CreateDevice] then creates nothing: the factory has a lock and a
    helper and neither a rendering device nor a composition graphics
    device.  On such a factory [CreateSurface] throws
    NullReferenceException at the null graphics device, after taking the
    lock and before creating anything, and the lock is released;
    [OnDeviceLost] throws NullReferenceException and changes nothing. *)
Theorem CreateFromCompositor_null_compositor options w :
  exists s,
    CreateFromCompositor_options None options w = (Ok tt, s) /\
    m_drawingLock (self s) = Some (length (locks w)) /\
    m_deviceLostHelper (self s) = Some (length (helpers w)) /\
    m_canvasDevice (self s) = None /\
    m_graphicsDevice (self s) = None /\
    canvasDevices (env s) = canvasDevices w /\
    graphicsDevices (env s) = graphicsDevices w /\
    trace (env s) = trace w /\
    (forall size, exists s',
       CreateSurface size s = (Throw NullReferenceException, s') /\
       self s' = self s /\
       surfaces (env s') = surfaces (env s) /\
       locks (env s') = locks (env s) /\
       trace (env s') = trace (env s) ++
         [EvLock (length (locks w)); EvUnlock (length (locks w))]) /\
    OnDeviceLost s = (Throw NullReferenceException, s).
Proof.
  destruct w. unfold_factory. lookups.
  eexists. split; [reflexivity|]. simpl.
  do 7 (split; [reflexivity|]).
  split; [|reflexivity].
  intros size. unfold CreateSurface. unfold_factory. unfold_backend. lookups.
  eexists. split; [reflexivity|]. simpl. rewrite ?insert_last.
  repeat split; reflexivity.
Qed.

(** X5. A factory built from an open composition graphics device uses the
    lock it is given and creates none; given no lock it creates a new one,
    which is free and which no handle of the world names.
    [CreateFromGraphicsDevice(device)] is
    [CreateFromGraphicsDevice(device, nullptr)].  In both cases the
    factory can draw at once, and no rendering device, helper or surface is
    created. *)
Theorem CreateFromGraphicsDevice_lock_choice w g gd lock :
  graphicsDevices w !! g = Some gd ->
  gd_closed gd = false ->
  (forall l, lock = Some l -> locks w !! l = Some false) ->
  exists s gd',
    CreateFromGraphicsDevice_lock (Some g) lock w = (Ok tt, s) /\
    CreateFromGraphicsDevice (Some g) w = CreateFromGraphicsDevice_lock (Some g) None w /\
    m_drawingLock (self s) =
      match lock with Some l => Some l | None => Some (length (locks w)) end /\
    locks (env s) = match lock with Some _ => locks w | None => locks w ++ [false] end /\
    locks w !! length (locks w) = None /\
    borrowing s (borrowed_lock lock w) g gd' /\
    gd_canvasDevice gd' = gd_canvasDevice gd /\
    canvasDevices (env s) = canvasDevices w /\
    helpers (env s) = helpers w /\
    surfaces (env s) = surfaces w.
Proof.
  intros Hgd Hopen Hlock.
  pose proof (lookup_lt_Some _ _ _ Hgd) as Hlt.
  eexists _, (mkGraphicsDevice (gd_compositor gd) (gd_canvasDevice gd)
                 (gd_handlers gd ++ [next_token w]) false).
  split; [apply (CreateFromGraphicsDevice_lock_run w g gd lock Hgd Hopen)|].
  split; [reflexivity|].
  split; [destruct lock; reflexivity|].
  split; [reflexivity|].
  split; [apply lookup_ge_None_2; lia|].
  split.
  { constructor; try reflexivity. constructor; try reflexivity; simpl.
    - destruct lock as [l|]; simpl.
      + apply Hlock. reflexivity.
      + apply list_lookup_middle. reflexivity.
    - apply list_lookup_insert_eq. exact Hlt. }
  repeat split; reflexivity.
Qed.

Lemma CreateFromGraphicsDevice_lock_choice_witness :
  exists s,
    CreateFromGraphicsDevice_lock (Some 0) None (env sample_owner) = (Ok tt, s) /\
    m_drawingLock (self s) = Some 1.
Proof.
  destruct (CreateFromGraphicsDevice_lock_choice (env sample_owner) 0 sample_gd None
              sample_world_device eq_refl)
    as (s & gd' & H & _ & Hl & _).
  - intros l Hl. discriminate Hl.
  - exists s. split; [exact H|exact Hl].
Defined.

(** ** Further properties: drawing *)

(** X6. Every method that creates, resizes or draws a surface gives the
    lock back on every exit path: whatever the arguments, and whether the
    call returns or throws, it leaves the lock table, the factory's
    fields, the rendering devices, the composition graphics devices, the
    helpers and the registrations as they were.  Only surfaces and the
    trace can differ. *)
Theorem drawing_calls_restore_the_lock LoadAsync c s :
  lock_free s ->
  is_drawing_call c = true ->
  unchanged s (call LoadAsync c s).
Proof.
  intros Hfree Hc. destruct c; simpl in *; try discriminate.
  - apply restoring_CreateSurface, Hfree.
  - apply restoring_ResizeSurface, Hfree.
  - apply restoring_DrawBitmap, Hfree.
  - apply restoring_DrawSurface, Hfree.
  - apply restoring_CreateSurfaceFromBytes, Hfree.
  - apply restoring_CreateSurfaceFromUri, Hfree.
  - apply restoring_CreateSurfaceFromUriAsync, Hfree.
  - apply restoring_CreateUriSurface, Hfree.
  - apply restoring_CreateUriSurfaceAsync, Hfree.
Qed.

Lemma drawing_calls_restore_the_lock_witness :
  fst (DrawBitmap 5 sample_bitmap Size_Empty Linear sample_owner) =
    Throw InvalidArgumentException /\
  locks (env (call no_bitmap (CallDrawBitmap 5 sample_bitmap Size_Empty Linear)
                sample_owner)) = [false].
Proof.
  split; [reflexivity|].
  rewrite (same_locks _ _
             (drawing_calls_restore_the_lock no_bitmap
                (CallDrawBitmap 5 sample_bitmap Size_Empty Linear) sample_owner
                ltac:(intros l [= <-]; reflexivity) eq_refl)).
  reflexivity.
Defined.

Lemma DrawSurface_begin_uri_run s l g gd surface u :
  live s l g gd ->
  DrawSurface_begin surface (Some u) s = (Ok (AwaitingLoadAsync (gd_canvasDevice gd) u), s).
Proof.
  intros [Hl Hf Hg Hgd Hopen]. unfold DrawSurface_begin, GetCanvasDevice,
    open_graphicsDevice, arg, fetch, bind, this, ret, throw.
  rewrite Hg, Hgd, Hopen. reflexivity.
Qed.

Lemma DrawSurface_throw_run LoadAsync s l g gd surface u e size interpolation :
  live s l g gd ->
  LoadAsync (gd_canvasDevice gd) u = Throw e ->
  DrawSurface LoadAsync surface (Some u) size interpolation s = (Throw e, s).
Proof.
  intros Hlive Hload. unfold DrawSurface.
  erewrite bind_ok; [|exact (DrawSurface_begin_uri_run s l g gd surface u Hlive)].
  unfold DrawSurface_resume, bind, lift. rewrite Hload. reflexivity.
Qed.

(** X7. With a URI, [DrawSurface] reaches [co_await LoadAsync] without
    taking the lock and without changing anything; the load is asked of
    the rendering device the composition graphics device has at that
    moment.  If the load fails, the task fails with the load's exception
    and the state is still unchanged: the surface keeps what it had. *)
Theorem DrawSurface_load_failure LoadAsync s l g gd surface u e size interpolation :
  live s l g gd ->
  LoadAsync (gd_canvasDevice gd) u = Throw e ->
  DrawSurface_begin surface (Some u) s =
    (Ok (AwaitingLoadAsync (gd_canvasDevice gd) u), s) /\
  DrawSurface LoadAsync surface (Some u) size interpolation s = (Throw e, s).
Proof.
  intros Hlive Hload.
  split; [exact (DrawSurface_begin_uri_run s l g gd surface u Hlive)|].
  exact (DrawSurface_throw_run LoadAsync s l g gd surface u e size interpolation
           Hlive Hload).
Qed.

Lemma DrawSurface_load_failure_witness :
  DrawSurface no_bitmap 0 (Some "ms-appx:///a.png") Size_Empty Linear sample_surface =
    (Throw BackendFailure, sample_surface).
Proof.
  exact (proj2 (DrawSurface_load_failure no_bitmap sample_surface 0 0 sample_gd 0
                  "ms-appx:///a.png" BackendFailure Size_Empty Linear
                  sample_surface_live eq_refl)).
Defined.

Lemma live_after_CreateSurface s l g gd size :
  live s l g gd ->
  live (snd (CreateSurface size s)) l g gd /\
  surfaces (env (snd (CreateSurface size s))) !! length (surfaces (env s)) =
    Some (mkSurface g (initial_size size) B8G8R8A8UIntNormalized Premultiplied [] None).
Proof.
  intros Hlive. rewrite (CreateSurface_run s l g gd size Hlive). simpl.
  destruct Hlive as [Hl Hf Hg Hgd Hopen].
  split; [constructor; simpl; assumption|].
  apply list_lookup_middle. reflexivity.
Qed.

(** X8. When the load fails, [CreateSurfaceFromUri] still returns the
    surface it allocated, and the caller sees no error, while
    [CreateSurfaceFromUriAsync] fails with the load's exception.  Both
    leave the same state: the new surface exists, unpainted, with the
    requested size, or (0,0) for an empty one. *)
Theorem creation_from_uri_load_failure LoadAsync s l g gd u e size interpolation :
  live s l g gd ->
  LoadAsync (gd_canvasDevice gd) u = Throw e ->
  exists s',
    CreateSurfaceFromUri LoadAsync (Some u) size interpolation s =
      (Ok (length (surfaces (env s))), s') /\
    CreateSurfaceFromUriAsync LoadAsync (Some u) size interpolation s = (Throw e, s') /\
    surfaces (env s') !! length (surfaces (env s)) =
      Some (mkSurface g (if IsEmpty size then mkSize (Fin 0) (Fin 0) else size)
              B8G8R8A8UIntNormalized Premultiplied [] None) /\
    length (surfaces (env s')) = S (length (surfaces (env s))).
Proof.
  intros Hlive Hload.
  destruct (live_after_CreateSurface s l g gd size Hlive) as [Hlive1 Hd].
  pose proof (CreateSurface_run s l g gd size Hlive) as Hrun.
  rewrite Hrun in Hlive1, Hd. simpl snd in Hlive1, Hd.
  match type of Hrun with _ = (_, ?st) => set (s1 := st) in * end.
  pose proof (DrawSurface_throw_run LoadAsync s1 l g gd
                (length (surfaces (env s))) u e size interpolation Hlive1 Hload) as Hdraw.
  exists s1. split; [|split; [|split]].
  - unfold CreateSurfaceFromUri. erewrite bind_ok; [|exact Hrun].
    unfold capture, bind. rewrite Hdraw. reflexivity.
  - unfold CreateSurfaceFromUriAsync. erewrite bind_ok; [|exact Hrun].
    erewrite bind_throw; [reflexivity|exact Hdraw].
  - exact Hd.
  - subst s1. simpl. rewrite length_app. simpl. lia.
Qed.

Lemma creation_from_uri_load_failure_witness :
  exists s',
    CreateSurfaceFromUri no_bitmap (Some "ms-appx:///a.png") Size_Empty Linear
      sample_owner = (Ok 0, s') /\
    CreateSurfaceFromUriAsync no_bitmap (Some "ms-appx:///a.png") Size_Empty Linear
      sample_owner = (Throw BackendFailure, s').
Proof.
  destruct (creation_from_uri_load_failure no_bitmap sample_owner 0 0 sample_gd
              "ms-appx:///a.png" BackendFailure Size_Empty Linear
              sample_owner_live eq_refl)
    as (s' & H1 & H2 & _).
  exists s'. split; [exact H1|exact H2].
Defined.

(** X9. When the load gives a bitmap, the surface that
    [CreateSurfaceFromUri] and [CreateSurfaceFromUriAsync] return ends up
    with the requested size, or the bitmap's size for an empty one, and
    holds the bitmap scaled into its full rectangle over a transparent
    clear.  Both forms reach the same state. *)
Theorem creation_from_uri_fills_surface LoadAsync s l g gd u b size interpolation :
  live s l g gd ->
  LoadAsync (gd_canvasDevice gd) u = Ok b ->
  exists s' d,
    CreateSurfaceFromUri LoadAsync (Some u) size interpolation s =
      (Ok (length (surfaces (env s))), s') /\
    CreateSurfaceFromUriAsync LoadAsync (Some u) size interpolation s =
      (Ok (length (surfaces (env s))), s') /\
    surfaces (env s') !! length (surfaces (env s)) = Some d /\
    surf_size d = (if IsEmpty size then bmp_size b else size) /\
    surf_content d =
      [PClear Transparent;
       PDrawImage b (full_rect (surf_size d)) (full_rect (bmp_size b)) (Fin 1)
         (GetCanvasImageInterpolation interpolation)] /\
    surf_session d = None /\
    locks (env s') = locks (env s).
Proof.
  intros Hlive Hload.
  destruct (live_after_CreateSurface s l g gd size Hlive) as [Hlive1 Hd].
  pose proof (CreateSurface_run s l g gd size Hlive) as Hrun.
  rewrite Hrun in Hlive1, Hd. simpl snd in Hlive1, Hd.
  match type of Hrun with _ = (_, ?st) => set (s1 := st) in * end.
  assert (Hdraw : exists s2,
    DrawSurface LoadAsync (length (surfaces (env s))) (Some u) size interpolation s1 =
      (Ok tt, s2) /\
    surfaces (env s2) !! length (surfaces (env s)) =
      Some (mkSurface g (if IsEmpty size then bmp_size b else size)
              B8G8R8A8UIntNormalized Premultiplied
              (bitmap_paints b (full_rect (working_size size b)) interpolation) None) /\
    locks (env s2) = locks (env s)).
  { unfold DrawSurface.
    erewrite bind_ok; [|apply (DrawSurface_begin_uri_run s1 l g gd _ u Hlive1)].
    unfold DrawSurface_resume. rewrite Hload. erewrite bind_ok; [|reflexivity].
    destruct Hlive1 as [Hl Hf Hg Hgd Hopen].
    rewrite (DrawBitmap_run s1 l _ _ b size interpolation Hl Hf Hd eq_refl).
    eexists. split; [reflexivity|]. split; [|reflexivity].
    simpl. rewrite list_lookup_insert_eq by (rewrite length_app; simpl; lia).
    unfold initial_size. destruct (IsEmpty size); reflexivity. }
  destruct Hdraw as (s2 & Hdraw & Hd2 & Hlocks).
  eexists s2, _. split; [|split; [|split; [exact Hd2|]]].
  - unfold CreateSurfaceFromUri. erewrite bind_ok; [|exact Hrun].
    unfold capture, bind. rewrite Hdraw. reflexivity.
  - unfold CreateSurfaceFromUriAsync. erewrite bind_ok; [|exact Hrun].
    erewrite bind_ok; [|exact Hdraw]. reflexivity.
  - simpl. split; [reflexivity|]. split; [|split; [reflexivity|exact Hlocks]].
    unfold bitmap_paints, working_size. reflexivity.
Qed.

Lemma creation_from_uri_fills_surface_witness :
  exists s' d,
    CreateSurfaceFromUri sample_loader (Some "ms-appx:///a.png") Size_Empty Linear
      sample_owner = (Ok 0, s') /\
    surfaces (env s') !! 0 = Some d /\
    surf_size d = mkSize (Fin 2) (Fin 2).
Proof.
  destruct (creation_from_uri_fills_surface sample_loader sample_owner 0 0 sample_gd
              "ms-appx:///a.png" _ Size_Empty Linear sample_owner_live eq_refl)
    as (s' & d & H1 & _ & Hd & Hsz & _).
  exists s', d. split; [exact H1|]. split; [exact Hd|exact Hsz].
Defined.

Lemma live_lock_free s l g gd : live s l g gd -> lock_free s.
Proof. intros [Hl Hf _ _ _] l'. rewrite Hl. intros [= <-]. exact Hf. Qed.

(** X10. [CreateSurfaceFromBytes] allocates its surface before the bitmap
    is made.  When the buffer has the wrong length the call throws
    InvalidArgumentException, and the surface it allocated stays behind:
    new, unpainted, with the requested size or (0,0).  Nothing else
    differs, and the lock is free again. *)
Theorem CreateSurfaceFromBytes_failure_leaves_surface
  s l g gd cd bytes w h size interpolation :
  live s l g gd ->
  canvasDevices (env s) !! gd_canvasDevice gd = Some cd ->
  cd_closed cd = false ->
  Z.of_nat (length bytes) <> (w * h * 4)%Z ->
  exists s',
    CreateSurfaceFromBytes bytes w h size interpolation s =
      (Throw InvalidArgumentException, s') /\
    surfaces (env s) !! length (surfaces (env s)) = None /\
    surfaces (env s') !! length (surfaces (env s)) =
      Some (mkSurface g (if IsEmpty size then mkSize (Fin 0) (Fin 0) else size)
              B8G8R8A8UIntNormalized Premultiplied [] None) /\
    unchanged s s'.
Proof.
  intros Hlive Hcd Hopen Hne.
  destruct (CreateSurfaceFromBytes_run s l g gd cd bytes w h size interpolation
              Hlive Hcd Hopen) as (s' & Hrun & Hd).
  apply Z.eqb_neq in Hne. rewrite Hne in Hrun, Hd.
  exists s'. split; [exact Hrun|]. split; [apply lookup_ge_None_2; lia|].
  split; [exact Hd|].
  pose proof (restoring_CreateSurfaceFromBytes bytes w h size interpolation s
                (live_lock_free _ _ _ _ Hlive)) as Hsame.
  rewrite Hrun in Hsame. exact Hsame.
Qed.

Lemma CreateSurfaceFromBytes_failure_leaves_surface_witness :
  exists s',
    CreateSurfaceFromBytes [x00; x00; x00] 1 1 Size_Empty Linear sample_owner =
      (Throw InvalidArgumentException, s') /\
    length (surfaces (env s')) = 1.
Proof.
  destruct (CreateSurfaceFromBytes_failure_leaves_surface sample_owner 0 0 sample_gd
              (mkCanvasDevice false false) [x00; x00; x00] 1 1 Size_Empty Linear
              sample_owner_live eq_refl eq_refl ltac:(discriminate))
    as (s' & H & _).
  exists s'. split; [exact H|]. vm_compute in H. injection H as <-. reflexivity.
Defined.

(** X11. When the buffer has the right length, the bitmap is made from
    exactly those bytes and dimensions on the rendering device the
    composition graphics device has at that moment, and the returned
    surface holds it scaled from its full rectangle into the surface's
    full rectangle, over a transparent clear, at opacity 1 and with the
    requested interpolation.  Apart from surfaces and trace nothing
    differs. *)
Theorem CreateSurfaceFromBytes_fills_surface s l g gd cd bytes w h size interpolation :
  live s l g gd ->
  canvasDevices (env s) !! gd_canvasDevice gd = Some cd ->
  cd_closed cd = false ->
  Z.of_nat (length bytes) = (w * h * 4)%Z ->
  exists s' d,
    CreateSurfaceFromBytes bytes w h size interpolation s =
      (Ok (length (surfaces (env s))), s') /\
    surfaces (env s') !! length (surfaces (env s)) = Some d /\
    surf_content d =
      [PClear Transparent;
       PDrawImage
         (mkBitmap (FromBytes (gd_canvasDevice gd) bytes w h B8G8R8A8UIntNormalized)
                   (mkSize (Fin w) (Fin h)))
         (full_rect (surf_size d)) (full_rect (mkSize (Fin w) (Fin h))) (Fin 1)
         (GetCanvasImageInterpolation interpolation)] /\
    surf_session d = None /\
    unchanged s s'.
Proof.
  intros Hlive Hcd Hopen Heq.
  destruct (CreateSurfaceFromBytes_run s l g gd cd bytes w h size interpolation
              Hlive Hcd Hopen) as (s' & Hrun & Hd).
  apply Z.eqb_eq in Heq. rewrite Heq in Hrun, Hd.
  eexists s', _. split; [exact Hrun|]. split; [exact Hd|].
  split; [reflexivity|]. split; [reflexivity|].
  pose proof (restoring_CreateSurfaceFromBytes bytes w h size interpolation s
                (live_lock_free _ _ _ _ Hlive)) as Hsame.
  rewrite Hrun in Hsame. exact Hsame.
Qed.

Lemma CreateSurfaceFromBytes_fills_surface_witness :
  exists s',
    CreateSurfaceFromBytes [x00; x00; x00; xff] 1 1 (mkSize (Fin 8) (Fin 8)) Linear
      sample_owner = (Ok 0, s').
Proof.
  destruct (CreateSurfaceFromBytes_fills_surface sample_owner 0 0 sample_gd
              (mkCanvasDevice false false) [x00; x00; x00; xff] 1 1
              (mkSize (Fin 8) (Fin 8)) Linear sample_owner_live eq_refl eq_refl eq_refl)
    as (s' & d & H & _).
  exists s'. exact H.
Defined.

(** X12. Drawing the same bitmap again with the same arguments changes no
    surface: after one [DrawBitmap] a second one succeeds and leaves every
    surface, the factory and the lock as the first left them. *)
Theorem DrawBitmap_idempotent s l surface d canvasBitmap size interpolation :
  m_drawingLock (self s) = Some l ->
  locks (env s) !! l = Some false ->
  surfaces (env s) !! surface = Some d ->
  surf_session d = None ->
  exists s1 s2,
    DrawBitmap surface canvasBitmap size interpolation s = (Ok tt, s1) /\
    DrawBitmap surface canvasBitmap size interpolation s1 = (Ok tt, s2) /\
    surfaces (env s2) = surfaces (env s1) /\
    self s2 = self s1 /\
    locks (env s2) = locks (env s1).
Proof.
  intros Hl Hf Hd Hs.
  pose proof (DrawBitmap_run s l surface d canvasBitmap size interpolation Hl Hf Hd Hs)
    as Hrun1.
  match type of Hrun1 with _ = (_, ?st) => set (s1 := st) in * end.
  assert (Hd1 : surfaces (env s1) !! surface =
                Some (mkSurface (surf_device d)
                        (if IsEmpty size then bmp_size canvasBitmap else surf_size d)
                        (surf_format d) (surf_alpha d)
                        (bitmap_paints canvasBitmap
                           (full_rect (working_size size canvasBitmap)) interpolation)
                        None)).
  { simpl. apply list_lookup_insert_eq. eauto using lookup_lt_Some. }
  pose proof (DrawBitmap_run s1 l surface _ canvasBitmap size interpolation Hl Hf Hd1
                eq_refl) as Hrun2.
  eexists s1, _. split; [exact Hrun1|]. split; [exact Hrun2|].
  split; [|split; reflexivity].
  simpl. rewrite list_insert_insert_eq. f_equal.
  destruct (IsEmpty size); reflexivity.
Qed.

Lemma DrawBitmap_idempotent_witness :
  exists s1 s2,
    DrawBitmap 0 sample_bitmap Size_Empty Linear sample_surface = (Ok tt, s1) /\
    DrawBitmap 0 sample_bitmap Size_Empty Linear s1 = (Ok tt, s2) /\
    surfaces (env s2) = surfaces (env s1).
Proof.
  destruct (DrawBitmap_idempotent sample_surface 0 0
              (mkSurface 0 (mkSize (Fin 10) (Fin 10)) B8G8R8A8UIntNormalized
                 Premultiplied [] None)
              sample_bitmap Size_Empty Linear eq_refl eq_refl eq_refl eq_refl)
    as (s1 & s2 & H1 & H2 & H3 & _).
  exists s1, s2. split; [exact H1|]. split; [exact H2|exact H3].
Defined.

(** X13. [ResizeSurface] resizes under the lock and touches nothing but
    the size of that surface.  A [DrawBitmap] with the same size after it
    draws the bitmap into the surface's full rectangle: this is how a
    surface is redrawn at a new size. *)
Theorem ResizeSurface_then_DrawBitmap s l surface d canvasBitmap size interpolation :
  m_drawingLock (self s) = Some l ->
  locks (env s) !! l = Some false ->
  surfaces (env s) !! surface = Some d ->
  surf_session d = None ->
  exists s1,
    ResizeSurface surface size s = (Ok tt, s1) /\
    surfaces (env s1) =
      <[surface := mkSurface (surf_device d) size (surf_format d) (surf_alpha d)
                     (surf_content d) None]> (surfaces (env s)) /\
    trace (env s1) = trace (env s) ++ [EvLock l; EvResize surface size; EvUnlock l] /\
    self s1 = self s /\
    locks (env s1) = locks (env s) /\
    draws_into_full_rect s1 surface canvasBitmap size interpolation.
Proof.
  intros Hl Hf Hd Hs.
  assert (Hrun : ResizeSurface surface size s =
    (Ok tt,
     update_env (fun w =>
       mkWorld (canvasDevices w) (graphicsDevices w)
         (<[surface := mkSurface (surf_device d) size (surf_format d) (surf_alpha d)
                         (surf_content d) None]> (surfaces w))
         (helpers w) (locks w) (next_token w)
         (trace w ++ [EvLock l; EvResize surface size; EvUnlock l])) s)).
  { unfold ResizeSurface. run_lock Hl Hf.
    open_state s. destruct d; simpl in *; subst. unfold_backend. simpl.
    rewrite Hd. lookups. rewrite (list_insert_id locks0) by done. reflexivity. }
  match type of Hrun with _ = (_, ?st) => set (s1 := st) in * end.
  exists s1. split; [exact Hrun|]. do 4 (split; [reflexivity|]).
  assert (Hd1 : surfaces (env s1) !! surface =
                Some (mkSurface (surf_device d) size (surf_format d) (surf_alpha d)
                        (surf_content d) None)).
  { simpl. apply list_lookup_insert_eq. eauto using lookup_lt_Some. }
  pose proof (DrawBitmap_run s1 l surface _ canvasBitmap size interpolation Hl Hf Hd1
                eq_refl) as Hdraw.
  unfold draws_into_full_rect. eexists _, _. split; [exact Hdraw|].
  split.
  - simpl. apply list_lookup_insert_eq. rewrite length_insert.
    eauto using lookup_lt_Some.
  - simpl. unfold working_size. destruct (IsEmpty size); reflexivity.
Qed.

Lemma ResizeSurface_then_DrawBitmap_witness :
  exists s1,
    ResizeSurface 0 (mkSize (Fin 5) (Fin 5)) sample_surface = (Ok tt, s1) /\
    draws_into_full_rect s1 0 sample_bitmap (mkSize (Fin 5) (Fin 5)) Linear.
Proof.
  destruct (ResizeSurface_then_DrawBitmap sample_surface 0 0
              (mkSurface 0 (mkSize (Fin 10) (Fin 10)) B8G8R8A8UIntNormalized
                 Premultiplied [] None)
              sample_bitmap (mkSize (Fin 5) (Fin 5)) Linear
              eq_refl eq_refl eq_refl eq_refl)
    as (s1 & H1 & _ & _ & _ & _ & H2).
  exists s1. split; [exact H1|exact H2].
Defined.

(** ** Further properties: device loss *)

Lemma OnDeviceLost_keeps_owning s c h g cd hd gd :
  owning s c h g cd hd gd ->
  let s' := snd (OnDeviceLost s) in
  owning s' (length (canvasDevices (env s))) h g
    (mkCanvasDevice (ForceSoftwareRenderer cd) false)
    (mkHelper (Some (length (canvasDevices (env s)))) (dl_handlers hd))
    (mkGraphicsDevice (gd_compositor gd) (length (canvasDevices (env s)))
       (gd_handlers gd) false) /\
  canvasDevices (env s') =
    canvasDevices (env s) ++ [mkCanvasDevice (ForceSoftwareRenderer cd) false] /\
  surfaces (env s') = surfaces (env s) /\
  locks (env s') = locks (env s) /\
  m_drawingLock (self s') = m_drawingLock (self s).
Proof.
  intros Hown. pose proof (OnDeviceLost_run s c h g cd hd gd Hown) as Hrun.
  simpl in Hrun. simpl. rewrite Hrun. simpl.
  destruct Hown as [Hcr Hc Hcd Hcopen Hh Hhd Hg Hgd Hgopen Hact].
  split; [|repeat split; reflexivity].
  constructor; simpl; try done.
  - apply list_lookup_middle. reflexivity.
  - apply list_lookup_insert_eq. eauto using lookup_lt_Some.
  - apply list_lookup_insert_eq. eauto using lookup_lt_Some.
Qed.

(** X14. However many device-lost notifications an owning factory in
    working order handles, it stays in working order: each one adds one
    open rendering device with the software-renderer flag of the first,
    the factory and its composition graphics device move to the newest,
    and the devices that were there are neither closed nor changed.
    Surfaces and the lock are left alone. *)
Theorem device_losses_keep_flag n s c h g cd hd gd :
  owning s c h g cd hd gd ->
  exists c' cd' hd' gd' new,
    owning (device_losses n s) c' h g cd' hd' gd' /\
    ForceSoftwareRenderer cd' = ForceSoftwareRenderer cd /\
    c' = match n with 0 => c | S k => length (canvasDevices (env s)) + k end /\
    canvasDevices (env (device_losses n s)) = canvasDevices (env s) ++ new /\
    length new = n /\
    Forall (fun d => ForceSoftwareRenderer d = ForceSoftwareRenderer cd /\
                     cd_closed d = false) new /\
    surfaces (env (device_losses n s)) = surfaces (env s) /\
    locks (env (device_losses n s)) = locks (env s) /\
    m_drawingLock (self (device_losses n s)) = m_drawingLock (self s).
Proof.
  revert s c cd hd gd. induction n as [|n IH]; intros s c cd hd gd Hown.
  - exists c, cd, hd, gd, []. simpl. rewrite app_nil_r.
    split; [exact Hown|]. repeat split; try reflexivity. constructor.
  - destruct (OnDeviceLost_keeps_owning s c h g cd hd gd Hown)
      as (Hown1 & Hcds & Hsurf & Hlocks & Hlock).
    destruct (IH _ _ _ _ _ Hown1)
      as (c' & cd' & hd' & gd' & new & Hown' & Hflag & Hc' & Hcds' & Hlen & Hall &
          Hsurf' & Hlocks' & Hlock').
    simpl in Hflag, Hall.
    exists c', cd', hd', gd', (mkCanvasDevice (ForceSoftwareRenderer cd) false :: new).
    simpl device_losses.
    split; [exact Hown'|]. split; [exact Hflag|].
    split.
    { rewrite Hc', Hcds. destruct n; [lia|]. rewrite length_app. simpl. lia. }
    split; [rewrite Hcds', Hcds, <- app_assoc; reflexivity|].
    split; [simpl; lia|].
    split; [constructor; [split; reflexivity|exact Hall]|].
    split; [congruence|]. split; congruence.
Qed.

Lemma device_losses_keep_flag_witness :
  exists c' cd' hd' gd',
    owning (device_losses 3 sample_owner) c' 0 0 cd' hd' gd' /\
    ForceSoftwareRenderer cd' = false /\ c' = 3.
Proof.
  destruct (device_losses_keep_flag 3 sample_owner 0 0 0 _ _ _ sample_owner_owning)
    as (c' & cd' & hd' & gd' & new & Hown & Hflag & Hc & _).
  exists c', cd', hd', gd'. split; [exact Hown|]. split; [exact Hflag|exact Hc].
Defined.

(** X15. After a device loss the factory draws with the new device: the
    bitmap that [CreateSurfaceFromBytes] makes next belongs to the
    rendering device created by [OnDeviceLost], not to the lost one, and
    the call succeeds. *)
Theorem bytes_after_device_loss_use_new_device
  s c h g cd hd gd l bytes w h' size interpolation :
  owning s c h g cd hd gd ->
  m_drawingLock (self s) = Some l ->
  locks (env s) !! l = Some false ->
  Z.of_nat (length bytes) = (w * h' * 4)%Z ->
  exists s1 s2 d dest src o i,
    OnDeviceLost s = (Ok tt, s1) /\
    CreateSurfaceFromBytes bytes w h' size interpolation s1 =
      (Ok (length (surfaces (env s))), s2) /\
    surfaces (env s2) !! length (surfaces (env s)) = Some d /\
    surf_content d =
      [PClear Transparent;
       PDrawImage
         (mkBitmap (FromBytes (length (canvasDevices (env s))) bytes w h'
                      B8G8R8A8UIntNormalized)
                   (mkSize (Fin w) (Fin h'))) dest src o i] /\
    length (canvasDevices (env s)) <> c.
Proof.
  intros Hown Hl Hf Heq.
  pose proof (OnDeviceLost_run s c h g cd hd gd Hown) as Hrun. simpl in Hrun.
  destruct (OnDeviceLost_keeps_owning s c h g cd hd gd Hown)
    as (Hown1 & Hcds & Hsurf & Hlocks & Hlock).
  simpl in Hown1, Hcds, Hsurf, Hlocks, Hlock.
  set (s1 := snd (OnDeviceLost s)) in *.
  assert (Hlive1 : live s1 l g
            (mkGraphicsDevice (gd_compositor gd) (length (canvasDevices (env s)))
               (gd_handlers gd) false)).
  { destruct Hown1. constructor; try assumption; try reflexivity.
    - rewrite Hlock. exact Hl.
    - rewrite Hlocks. exact Hf. }
  destruct (CreateSurfaceFromBytes_run s1 l g _
              (mkCanvasDevice (ForceSoftwareRenderer cd) false)
              bytes w h' size interpolation Hlive1)
    as (s2 & Hrun2 & Hd2).
  { simpl. rewrite Hcds. apply list_lookup_middle. reflexivity. }
  { reflexivity. }
  apply Z.eqb_eq in Heq. rewrite Heq in Hrun2, Hd2. rewrite Hsurf in Hrun2, Hd2.
  simpl in Hd2.
  eexists s1, s2, _, _, _, _, _.
  split; [subst s1; rewrite Hrun; reflexivity|].
  split; [exact Hrun2|]. split; [exact Hd2|]. split; [reflexivity|].
  destruct Hown as [_ _ Hcd _ _ _ _ _ _ _].
  apply lookup_lt_Some in Hcd. lia.
Qed.

Lemma bytes_after_device_loss_use_new_device_witness :
  exists s1 s2,
    OnDeviceLost sample_owner = (Ok tt, s1) /\
    CreateSurfaceFromBytes [x00; x00; x00; xff] 1 1 Size_Empty Linear s1 = (Ok 0, s2).
Proof.
  destruct (bytes_after_device_loss_use_new_device sample_owner 0 0 0 _ _ _ 0
              [x00; x00; x00; xff] 1 1 Size_Empty Linear
              sample_owner_owning eq_refl eq_refl eq_refl)
    as (s1 & s2 & d & dest & src & o & i & H1 & H2 & _).
  exists s1, s2. split; [exact H1|exact H2].
Defined.

(** X16. Tearing down a factory of the borrowing mode does not disturb
    another factory that shares its composition graphics device and its
    lock: the other factory's registration stays, the device stays open,
    the lock is free, and the other factory can still create surfaces. *)
Theorem borrowed_teardown_spares_others s l g gd other size :
  borrowing s l g gd ->
  m_drawingLock other = Some l ->
  m_graphicsDevice other = Some g ->
  OnRenderingDeviceReplacedHandler other ∈ gd_handlers gd ->
  OnRenderingDeviceReplacedHandler other <> OnRenderingDeviceReplacedHandler (self s) ->
  exists s' gd' s'',
    Uninitialize s = (Ok tt, s') /\
    live (mkState other (env s')) l g gd' /\
    (OnRenderingDeviceReplacedHandler other ∈ gd_handlers gd') /\
    CreateSurface size (mkState other (env s')) =
      (Ok (length (surfaces (env s))), s'').
Proof.
  intros Hb Hl Hg Hin Hne.
  pose proof (Uninitialize_borrowing_run s l g gd Hb) as Hrun.
  destruct Hb as [_ _ _ [_ Hf _ Hgd Hopen]].
  match type of Hrun with _ = (_, ?st) => set (s' := st) in * end.
  set (gd' := mkGraphicsDevice (gd_compositor gd) (gd_canvasDevice gd)
                (filter (fun t => t <> OnRenderingDeviceReplacedHandler (self s))
                   (gd_handlers gd)) false).
  assert (Hlive : live (mkState other (env s')) l g gd').
  { constructor; simpl; try assumption; try reflexivity.
    apply list_lookup_insert_eq. eauto using lookup_lt_Some. }
  eexists s', gd', _. split; [exact Hrun|]. split; [exact Hlive|].
  split; [simpl; apply list_elem_of_filter; split; assumption|].
  rewrite (CreateSurface_run _ _ _ _ size Hlive). reflexivity.
Qed.

Lemma borrowed_teardown_spares_others_witness :
  exists s' s'',
    Uninitialize sample_borrower = (Ok tt, s') /\
    CreateSurface Size_Empty (mkState (self sample_owner) (env s')) = (Ok 0, s'').
Proof.
  destruct (borrowed_teardown_spares_others sample_borrower 0 0
              (mkGraphicsDevice 7 0 [1; 2] false) (self sample_owner) Size_Empty)
    as (s' & gd' & s'' & H1 & _ & _ & H2).
  - repeat constructor.
  - reflexivity.
  - reflexivity.
  - simpl. rewrite !elem_of_cons. auto.
  - simpl. lia.
  - exists s', s''. split; [exact H1|exact H2].
Defined.

Lemma CreateSurfaceFromUri_null_scenario_witness :
  exists s' d,
    CreateSurfaceFromUri no_bitmap None (mkSize (Fin 100) (Fin 50)) Linear sample_owner =
      (Ok 0, s') /\
    surfaces (env s') !! 0 = Some d /\
    surf_size d = mkSize (Fin 1) (Fin 1).
Proof.
  destruct (CreateSurfaceFromUri_null_scenario no_bitmap sample_owner 0 0 sample_gd
              (mkSize (Fin 100) (Fin 50)) Linear sample_owner_live)
    as (s' & d & H & Hd & Hsz & _).
  exists s', d. split; [exact H|]. split; [exact Hd|exact Hsz].
Defined.
